(** * good.py: the stock-market dashboard script

  A shallow embedding of [good.py], the single Streamlit script of the
  repository.  The script reads five widgets, downloads one table of
  daily OHLCV rows per selected ticker, and renders a raw-data preview,
  a CSV download, four charts and a snapshot table.

  Conventions of the embedding:
  - the widget values are the fields of [Inputs]; what the script puts
    on the page is a list of [event]s, in program order;
  - [yf.download] is an argument of the script (an oracle from the
    request to the fetched tables or an exception);
  - a Python exception ends the run; what was rendered before stays;
  - prices are exact rationals ([Qc]); the values a float64 column can
    hold besides finite numbers (the infinities and NaN) are the other
    constructors of [fval].  Binary rounding error of float64 is outside
    the model, and so are missing cells in the fetched rows: a fetched
    price is a finite number and a fetched volume an integer;
  - the fetched data maps each ticker to its own list of rows, as
    [all_data[sym]] reads it. *)

From Stdlib Require Import QArith Qcanon ZArith Lia Lqa.
From stdpp Require Import gmap strings list.

Open Scope Qc_scope.

(** ** Numbers *)

Module Num.

(** A float64 value: finite, infinite, or NaN (pandas' missing value). *)
Inductive fval :=
| Fin (q : Qc)
| PInf
| NInf
| NaN.



Definition Qc_is_zero (q : Qc) : bool := (Qnum q =? 0)%Z.
Definition Qc_is_neg (q : Qc) : bool := (Qnum q <? 0)%Z.

Definition inf_of (negative : bool) : fval := if negative then NInf else PInf.

(** IEEE-754 division, without rounding and without a negative zero. *)
Definition fdiv (x y : fval) : fval :=
  match x, y with
  | NaN, _ | _, NaN => NaN
  | Fin a, Fin b =>
      if Qc_is_zero b
      then (if Qc_is_zero a then NaN else inf_of (Qc_is_neg a))
      else Fin (a / b)
  | Fin _, (PInf | NInf) => Fin 0
  | PInf, Fin b => inf_of (Qc_is_neg b)
  | NInf, Fin b => inf_of (negb (Qc_is_neg b))
  | (PInf | NInf), (PInf | NInf) => NaN
  end.

Definition fsub (x y : fval) : fval :=
  match x, y with
  | NaN, _ | _, NaN => NaN
  | Fin a, Fin b => Fin (a - b)
  | Fin _, PInf => NInf
  | Fin _, NInf => PInf
  | PInf, Fin _ => PInf
  | NInf, Fin _ => NInf
  | PInf, NInf => PInf
  | NInf, PInf => NInf
  | PInf, PInf | NInf, NInf => NaN
  end.

Definition fmul (x y : fval) : fval :=
  match x, y with
  | NaN, _ | _, NaN => NaN
  | Fin a, Fin b => Fin (a * b)
  | Fin a, PInf | PInf, Fin a =>
      if Qc_is_zero a then NaN else inf_of (Qc_is_neg a)
  | Fin a, NInf | NInf, Fin a =>
      if Qc_is_zero a then NaN else inf_of (negb (Qc_is_neg a))
  | PInf, PInf | NInf, NInf => PInf
  | PInf, NInf | NInf, PInf => NInf
  end.

(** [round(x, 2)] on a finite value: to the nearest multiple of 1/100,
    a tie going to the even one. *)
Definition rint (q : Qc) : Z :=
  let n := Qnum q in
  let d := Zpos (Qden q) in
  let fl := (n / d)%Z in
  let r := (n mod d)%Z in
  match (2 * r ?= d)%Z with
  | Lt => fl
  | Gt => (fl + 1)%Z
  | Eq => if Z.even fl then fl else (fl + 1)%Z
  end.

Definition round2 (q : Qc) : Qc := Q2Qc (rint (q * Q2Qc 100) # 100).

(** [int(x)] on a finite value: truncation toward zero. *)
Definition int_of (q : Qc) : Z := Z.quot (Qnum q) (Zpos (Qden q)).

(** An int64 cell read through a float64 row. *)
Definition of_int (z : Z) : Qc := Q2Qc (inject_Z z).

End Num.
Export Num.

(** ** pandas: Series and DataFrame operations used by the script *)

Module Pandas.

(** [Series.shift(1)]: every value moves one place down, the first
    place is filled with NaN, and the index (hence the length) stays. *)
Definition shift (data : list fval) : list fval :=
  take (length data) (NaN :: data).

(** [Series.pct_change()]: [data / data.shift(1) - 1]. *)
Definition pct_change (data : list fval) : list fval :=
  map (fun x => fsub x (Fin 1)) (zip_with fdiv data (shift data)).

(** [series * k]. *)
Definition smul (data : list fval) (k : Qc) : list fval :=
  map (fun x => fmul x (Fin k)) data.


End Pandas.

(** The percent change as the data model words it:
    [(close[t] - close[t-1]) / close[t-1] * 100]. *)
Definition spec_percent_change (c p : Qc) : fval :=
  fmul (fdiv (fsub (Fin c) (Fin p)) (Fin p)) (Fin (Q2Qc 100)).

(** The percent change as line 113 computes it on two neighbouring closes:
    [(close[t] / close[t-1] - 1) * 100]. *)
Definition code_percent_change (c p : Qc) : fval :=
  fmul (fsub (fdiv (Fin c) (Fin p)) (Fin 1)) (Fin (Q2Qc 100)).

(** ** Data model *)

(** A calendar day, as [datetime.date(year, month, day)]. *)
Record date := mk_date { year : Z; month : Z; day : Z }.

(** One row of a ticker's table; [Date] is the index, the rest the columns
    (float64 prices, int64 volume). *)
Record OHLCVRow := {
  Date : date;
  Open : Qc;
  High : Qc;
  Low : Qc;
  Close : Qc;
  Volume : Z
}.

(** [all_data[sym]]: the rows of one ticker, in the order fetched. *)
Abbreviation DataFrame := (list OHLCVRow) (only parsing).

(** A row of [df.assign(Symbol=sym)]. *)
Record PreviewRow := { ohlcv : OHLCVRow; Symbol : string }.

(** A row of a DataFrame as a Series ([df.iloc[k]]): one dtype for all
    five cells, so the int64 volume is read as a float64. *)
Record RowSeries := {
  row_name : date;
  row_Open : Qc;
  row_High : Qc;
  row_Low : Qc;
  row_Close : Qc;
  row_Volume : Qc
}.

(** The dictionary of column lists built for the snapshot. *)
Record LatestData := {
  col_Symbol : list string;
  col_Latest_Price : list Qc;
  col_Opening_Price : list Qc;
  col_High : list Qc;
  col_Low : list Qc;
  col_Volume : list Z
}.

(** A row of [df_latest]. *)
Record SnapshotRow := {
  snap_Symbol : string;
  snap_Latest_Price : Qc;
  snap_Opening_Price : Qc;
  snap_High : Qc;
  snap_Low : Qc;
  snap_Volume : Z
}.

(** ** plotly *)

Inductive ydata :=
| Floats (values : list fval)
| Ints (values : list Z).

Record Scatter := {
  x : list date;
  y : ydata;
  mode : string;
  stackgroup : option string;
  name : string
}.

Record Layout := {
  title : string;
  xaxis_title : string;
  yaxis_title : string
}.

Record Figure := { data : list Scatter; layout : option Layout }.

(** [go.Figure()] *)
Definition go_Figure : Figure := {| data := []; layout := None |}.

Definition add_trace (fig : Figure) (t : Scatter) : Figure :=
  {| data := data fig ++ [t]; layout := layout fig |}.

Definition update_layout (fig : Figure) (l : Layout) : Figure :=
  {| data := data fig; layout := Some l |}.

(** The legend of a chart: the names of its traces, in order. *)
Definition legend (fig : Figure) : list string := map name (data fig).

(** ** The page and the run *)

(** The arguments of the one [yf.download] call. *)
Record Request := {
  tickers : list string;
  req_start : date;
  req_end : date;
  group_by : string;
  auto_adjust : bool
}.

(** Where an element is placed: the main area, the sidebar, or inside an
    expander of one of them. *)
Inductive container :=
| Main
| Sidebar
| Within (parent : container) (label : string).

(** How a Python computation ends. *)
Inductive exn :=
| KeyError (key : string)
| IndexError
| ValueError
| OtherError (what : string).

Inductive outcome (A : Type) :=
| Returned (a : A)
| Raised (e : exn).
Arguments Returned {A} a.
Arguments Raised {A} e.

(** What the user set in the sidebar when the script runs. *)
Record Inputs := {
  symbols : list string;
  start_date : date;
  end_date : date;
  dark_mode : bool;
  refresh : bool
}.

(** A free rendering of the CSV text and of its encoding, for running the
    script on sample data. *)
Definition plain_csv (rows : list PreviewRow) (index : bool) :
  list PreviewRow * bool := (rows, index).
Definition plain_encode (t : list PreviewRow * bool) (encoding : string) :
  (list PreviewRow * bool) * string := (t, encoding).

Section Script.

(** [DataFrame.to_csv(index=...)] and [str.encode(encoding)] are the
    libraries'; the script only passes their results on. *)
Variables (text bytes : Type).
Variable to_csv : list PreviewRow -> bool -> text.
Variable encode : text -> string -> bytes.

Inductive element :=
| St_title (body : string)
| St_markdown (body : string)
| St_subheader (body : string)
| St_success (body : string)
| St_warning (body : string)
| St_multiselect (label : string) (options default : list string)
| St_date_input (label : string) (value : date)
| St_checkbox (label : string)
| St_button (label : string)
| St_expander (label : string)
| St_dataframe (rows : list PreviewRow) (use_container_width : bool)
| St_download_button (label : string) (content : bytes) (file_name mime : string)
| St_plotly_chart (fig : Figure) (use_container_width : bool)
| St_table (rows : list SnapshotRow).

Inductive event :=
| SetPageConfig (page_title page_layout : string)
| Render (c : container) (e : element)
| Fetch (req : Request).

(** A computation: what it put on the page (and fetched), and how it
    ended. *)
Definition M (A : Type) : Type := list event * outcome A.

Definition ret {A} (a : A) : M A := ([], Returned a).
Definition raise {A} (e : exn) : M A := ([], Raised e).
Definition emit (e : event) : M unit := ([e], Returned tt).

Definition bind {A B} (m : M A) (k : A -> M B) : M B :=
  match m with
  | (log, Returned a) => let (log', r) := k a in (log ++ log', r)
  | (log, Raised e) => (log, Raised e)
  end.

Definition lift {A} (o : outcome A) : M A := ([], o).

Notation "'let!' x ':=' m 'in' k" := (bind m (fun x => k))
  (at level 10, x name, m at level 100, k at level 200).
Notation "'do!' m 'in' k" := (bind m (fun _ => k))
  (at level 10, m at level 100, k at level 200).
Notation "'let!' ' p ':=' m 'in' k" :=
  (bind m (fun x => match x with p => k end))
  (at level 10, p pattern, m at level 100, k at level 200).

(** [for x in xs: body], the loop's variables threaded as [s]. *)
Fixpoint for_each {A S} (xs : list A) (body : S -> A -> M S) (s : S) : M S :=
  match xs with
  | [] => ret s
  | x :: xs' => let! s' := body s x in for_each xs' body s'
  end.

(** [[f(x) for x in xs]] *)
Fixpoint list_comp {A B} (f : A -> M B) (xs : list A) : M (list B) :=
  match xs with
  | [] => ret []
  | x :: xs' => let! b := f x in let! bs := list_comp f xs' in ret (b :: bs)
  end.

(** *** Streamlit calls *)

Definition st_show (c : container) (e : element) : M unit := emit (Render c e).

Definition st_multiselect (c : container) (label : string)
    (options default value : list string) : M (list string) :=
  do! st_show c (St_multiselect label options default) in ret value.

Definition st_date_input (c : container) (label : string)
    (default value : date) : M date :=
  do! st_show c (St_date_input label default) in ret value.

Definition st_checkbox (c : container) (label : string) (value : bool) : M bool :=
  do! st_show c (St_checkbox label) in ret value.

Definition st_button (c : container) (label : string) (value : bool) : M bool :=
  do! st_show c (St_button label) in ret value.

(** [with c.expander(label):] gives the container of the block. *)
Definition st_expander (c : container) (label : string) : M container :=
  do! st_show c (St_expander label) in ret (Within c label).

(** *** pandas and yfinance calls *)

(** [all_data[sym]] *)
Definition getitem (all_data : gmap string DataFrame) (sym : string) : M DataFrame :=
  match all_data !! sym with
  | Some df => ret df
  | None => raise (KeyError sym)
  end.

(** [df.assign(Symbol=sym)] *)
Definition assign_Symbol (df : DataFrame) (sym : string) : list PreviewRow :=
  map (fun r => {| ohlcv := r; Symbol := sym |}) df.

(** [pd.concat(frames)]: the frames stacked in order; an empty list of
    frames is an error. *)
Definition pd_concat (frames : list (list PreviewRow)) : M (list PreviewRow) :=
  match frames with
  | [] => raise ValueError
  | _ :: _ => ret (concat frames)
  end.

(** [df.head(n)] *)
Definition head (rows : list PreviewRow) (n : nat) : list PreviewRow := take n rows.

(** [df.index] and the columns [df["Open"]], [df["Close"]], [df["Volume"]]. *)
Definition index (df : DataFrame) : list date := map Date df.
Definition col_Open (df : DataFrame) : list fval := map (fun r => Fin (Open r)) df.
Definition col_Close (df : DataFrame) : list fval := map (fun r => Fin (Close r)) df.
Definition col_Vol (df : DataFrame) : list Z := map Volume df.

(** [df.iloc[-1]]: the last row as a Series; out of bounds on an empty
    frame. *)
Definition iloc_last (df : DataFrame) : M RowSeries :=
  match last df with
  | Some r => ret {| row_name := Date r;
                     row_Open := Open r;
                     row_High := High r;
                     row_Low := Low r;
                     row_Close := Close r;
                     row_Volume := of_int (Volume r) |}
  | None => raise IndexError
  end.

(** [pd.DataFrame(latest_data)]: the columns side by side; columns of
    different lengths are an error. *)
Fixpoint zip_rows (a : list string) (b c d e : list Qc) (f : list Z) : list SnapshotRow :=
  match a, b, c, d, e, f with
  | a0 :: a', b0 :: b', c0 :: c', d0 :: d', e0 :: e', f0 :: f' =>
      {| snap_Symbol := a0; snap_Latest_Price := b0; snap_Opening_Price := c0;
         snap_High := d0; snap_Low := e0; snap_Volume := f0 |}
      :: zip_rows a' b' c' d' e' f'
  | _, _, _, _, _, _ => []
  end.

Definition same_lengths (d : LatestData) : bool :=
  let n := length (col_Symbol d) in
  (length (col_Latest_Price d) =? n)%nat && (length (col_Opening_Price d) =? n)%nat
  && (length (col_High d) =? n)%nat && (length (col_Low d) =? n)%nat
  && (length (col_Volume d) =? n)%nat.

Definition pd_DataFrame (d : LatestData) : M (list SnapshotRow) :=
  if same_lengths d
  then ret (zip_rows (col_Symbol d) (col_Latest_Price d) (col_Opening_Price d)
                     (col_High d) (col_Low d) (col_Volume d))
  else raise ValueError.

(** [yf.download(...)]: the call is recorded, the upstream answers. *)
Definition yf_download (upstream : Request -> outcome (gmap string DataFrame))
    (req : Request) : M (gmap string DataFrame) :=
  do! emit (Fetch req) in lift (upstream req).

(** *** The script *)

Definition options : list string :=
  ["AAPL"; "MSFT"; "GOOGL"; "AMZN"; "TSLA"; "META"; "NVDA"; "NFLX"; "IBM"; "INTC"].

(** Lines 7-47: page set-up, the five widgets and the headings.  The
    values read are returned in the order the script binds them:
    [symbols], [start_date], [end_date], [dark_mode], [refresh]. *)
Definition controls (today : date) (i : Inputs)
    : M (list string * date * date * bool * bool) :=
  do! emit (SetPageConfig "📊 Enhanced Stock Market Dashboard" "wide") in
  do! st_show Sidebar (St_title "📊 Dashboard Controls") in
  do! st_show Sidebar (St_markdown "
Welcome to your *Stock Dashboard*!  
Track *Opening, Closing, Volume, and **% Change* of top companies in real time.
") in
  let! symbols := st_multiselect Sidebar "📌 Select Stocks to View"
                    options ["AAPL"; "MSFT"] (symbols i) in
  let! start_date := st_date_input Sidebar "🗓 Start Date"
                       (mk_date 2023 1 1) (start_date i) in
  let! end_date := st_date_input Sidebar "📅 End Date" today (end_date i) in
  let! box := st_expander Sidebar "ℹ What do these mean?" in
  do! st_show box (St_markdown "
    - *Open*: Price at market open  
    - *Close*: Price at market close  
    - *Volume*: Number of shares traded  
    - *% Change*: Daily percent movement  
    ") in
  let! dark_mode := st_checkbox Sidebar "🌗 Enable Dark Theme" (dark_mode i) in
  do! st_show Main (St_title "📈Real-Time Stock Market Dashboard") in
  do! st_show Main (St_markdown "View real-time stock prices with interactive *Opening/Closing price trends, **volume*, and more!") in
  let! refresh := st_button Sidebar "🔄 Refresh Data" (refresh i) in
  ret (symbols, start_date, end_date, dark_mode, refresh).

(** Lines 54-58: the raw-data preview. *)
Definition raw_data_preview (all_data : gmap string DataFrame)
    (symbols : list string) : M (list PreviewRow) :=
  do! st_show Main (St_subheader "📋 Raw Data Preview") in
  let! box := st_expander Main "Click to view raw data" in
  let! frames := list_comp (fun sym =>
                    let! df := getitem all_data sym in
                    ret (assign_Symbol df sym)) symbols in
  let! preview_data := pd_concat frames in
  do! st_show box (St_dataframe (head preview_data 20) true) in
  ret preview_data.

(** Lines 60-67: the CSV download. *)
Definition csv_download (preview_data : list PreviewRow) : M unit :=
  let csv_data := encode (to_csv preview_data true) "utf-8" in
  st_show Sidebar
    (St_download_button "📥 Download CSV" csv_data "stock_data.csv" "text/csv").

(** Lines 69-80: the opening-price chart. *)
Definition opening_price_chart (all_data : gmap string DataFrame)
    (symbols : list string) : M unit :=
  do! st_show Main (St_subheader "🚀 Opening Stock Price Trend") in
  let! fig_open := for_each symbols (fun fig sym =>
      let! df := getitem all_data sym in
      let! df' := getitem all_data sym in
      ret (add_trace fig {| x := index df;
                            y := Floats (col_Open df');
                            mode := "lines";
                            stackgroup := None;
                            name := sym |})) go_Figure in
  let fig_open := update_layout fig_open
      {| title := "Opening Price Over Time";
         xaxis_title := "Date";
         yaxis_title := "Opening Price (USD)" |} in
  st_show Main (St_plotly_chart fig_open true).

(** Lines 82-93: the closing-price chart. *)
Definition closing_price_chart (all_data : gmap string DataFrame)
    (symbols : list string) : M unit :=
  do! st_show Main (St_subheader "📉 Closing Stock Price Trend") in
  let! fig_close := for_each symbols (fun fig sym =>
      let! df := getitem all_data sym in
      let! df' := getitem all_data sym in
      ret (add_trace fig {| x := index df;
                            y := Floats (col_Close df');
                            mode := "lines+markers";
                            stackgroup := None;
                            name := sym |})) go_Figure in
  let fig_close := update_layout fig_close
      {| title := "Closing Price Over Time";
         xaxis_title := "Date";
         yaxis_title := "Closing Price (USD)" |} in
  st_show Main (St_plotly_chart fig_close true).

(** Lines 95-107: the volume chart. *)
Definition volume_chart (all_data : gmap string DataFrame)
    (symbols : list string) : M unit :=
  do! st_show Main (St_subheader "📊 Daily Volume Traded") in
  let! fig_vol := for_each symbols (fun fig sym =>
      let! df := getitem all_data sym in
      let! df' := getitem all_data sym in
      ret (add_trace fig {| x := index df;
                            y := Ints (col_Vol df');
                            mode := "lines";
                            stackgroup := Some "one";
                            name := sym |})) go_Figure in
  let fig_vol := update_layout fig_vol
      {| title := "Volume Traded Over Time";
         xaxis_title := "Date";
         yaxis_title := "Volume" |} in
  st_show Main (St_plotly_chart fig_vol true).

(** Lines 109-121: the percent-change chart. *)
Definition pct_change_chart (all_data : gmap string DataFrame)
    (symbols : list string) : M unit :=
  do! st_show Main (St_subheader "📈 Daily % Change in Closing Price") in
  let! fig_pct := for_each symbols (fun fig sym =>
      let! df := getitem all_data sym in
      let pct_change := Pandas.smul (Pandas.pct_change (col_Close df)) (Q2Qc 100) in
      let! df' := getitem all_data sym in
      ret (add_trace fig {| x := index df';
                            y := Floats pct_change;
                            mode := "lines";
                            stackgroup := None;
                            name := sym |})) go_Figure in
  let fig_pct := update_layout fig_pct
      {| title := "Daily Percentage Change";
         xaxis_title := "Date";
         yaxis_title := "Change (%)" |} in
  st_show Main (St_plotly_chart fig_pct true).

(** Lines 134-141: the body of the snapshot loop. *)
Definition snapshot_step (all_data : gmap string DataFrame)
    (latest_data : LatestData) (sym : string) : M LatestData :=
  let! df := getitem all_data sym in
  let! latest_row := iloc_last df in
  ret {| col_Symbol := col_Symbol latest_data ++ [sym];
         col_Latest_Price :=
           col_Latest_Price latest_data ++ [round2 (row_Close latest_row)];
         col_Opening_Price :=
           col_Opening_Price latest_data ++ [round2 (row_Open latest_row)];
         col_High := col_High latest_data ++ [round2 (row_High latest_row)];
         col_Low := col_Low latest_data ++ [round2 (row_Low latest_row)];
         col_Volume :=
           col_Volume latest_data ++ [int_of (row_Volume latest_row)] |}.

(** Lines 123-144: the snapshot table. *)
Definition latest_snapshot (all_data : gmap string DataFrame)
    (symbols : list string) : M unit :=
  do! st_show Main (St_subheader "🔍 Latest Market Snapshot") in
  let latest_data := {| col_Symbol := []; col_Latest_Price := [];
                        col_Opening_Price := []; col_High := [];
                        col_Low := []; col_Volume := [] |} in
  let! latest_data := for_each symbols (snapshot_step all_data) latest_data in
  let! df_latest := pd_DataFrame latest_data in
  st_show Main (St_table df_latest).

(** Lines 52-144: everything rendered from the fetched data. *)
Definition dashboard (all_data : gmap string DataFrame) (symbols : list string)
    : M unit :=
  do! st_show Main (St_success "✅ Data successfully loaded!") in
  let! preview_data := raw_data_preview all_data symbols in
  do! csv_download preview_data in
  do! opening_price_chart all_data symbols in
  do! closing_price_chart all_data symbols in
  do! volume_chart all_data symbols in
  do! pct_change_chart all_data symbols in
  latest_snapshot all_data symbols.

(** Lines 50-144: the data load block, entered when [symbols] is not
    empty. *)
Definition data_load_block (upstream : Request -> outcome (gmap string DataFrame))
    (symbols : list string) (start_date end_date : date) : M unit :=
  let! all_data := yf_download upstream
      {| tickers := symbols; req_start := start_date; req_end := end_date;
         group_by := "ticker"; auto_adjust := true |} in
  dashboard all_data symbols.

(** Lines 49-147: the branch on the selection. *)
Definition branch (upstream : Request -> outcome (gmap string DataFrame))
    (symbols : list string) (start_date end_date : date) : M unit :=
  match symbols with
  | _ :: _ => data_load_block upstream symbols start_date end_date
  | [] => st_show Main
            (St_warning "👈 Please select at least one stock symbol to view data.")
  end.

(** The whole script, run once. *)
Definition script (today : date) (i : Inputs)
    (upstream : Request -> outcome (gmap string DataFrame)) : M unit :=
  let! '(symbols, start_date, end_date, dark_mode, refresh) := controls today i in
  branch upstream symbols start_date end_date.

(** *** Reading a run *)

(** What a run rendered, fetched, and how it ended. *)
Definition log_of {A} (m : M A) : list event := fst m.
Definition result_of {A} (m : M A) : outcome A := snd m.

Definition fetches (log : list event) : list Request :=
  omap (fun ev => match ev with Fetch req => Some req | _ => None end) log.

Definition rendered (log : list event) : list element :=
  omap (fun ev => match ev with Render _ e => Some e | _ => None end) log.

(** The tables shown by [st.dataframe]. *)
Definition dataframes (log : list event) : list (list PreviewRow) :=
  omap (fun e => match e with St_dataframe rows _ => Some rows | _ => None end)
       (rendered log).

(** The download buttons: content, file name and MIME type. *)
Definition downloads (log : list event) : list (bytes * string * string) :=
  omap (fun e => match e with
                 | St_download_button _ content file_name mime =>
                     Some (content, file_name, mime)
                 | _ => None
                 end) (rendered log).

Definition charts (log : list event) : list Figure :=
  omap (fun e => match e with St_plotly_chart fig _ => Some fig | _ => None end)
       (rendered log).

Definition tables (log : list event) : list (list SnapshotRow) :=
  omap (fun e => match e with St_table rows => Some rows | _ => None end)
       (rendered log).

Definition warnings (log : list event) : list string :=
  omap (fun e => match e with St_warning body => Some body | _ => None end)
       (rendered log).

(** *** Closed forms of the loops *)

(** The frame of a ticker the upstream returned (empty if it did not). *)
Definition frame_of (all_data : gmap string DataFrame) (sym : string) : DataFrame :=
  default [] (all_data !! sym).

(** Every selected ticker has a frame in the fetched data. *)
Definition all_present (all_data : gmap string DataFrame) (symbols : list string) : Prop :=
  Forall (fun sym => is_Some (all_data !! sym)) symbols.

(** Every selected ticker has at least one fetched row. *)
Definition all_nonempty (all_data : gmap string DataFrame) (symbols : list string) : Prop :=
  Forall (fun sym => frame_of all_data sym <> []) symbols.

Definition preview_of (all_data : gmap string DataFrame) (symbols : list string)
    : list PreviewRow :=
  concat (map (fun sym => assign_Symbol (frame_of all_data sym) sym) symbols).

Definition open_trace (all_data : gmap string DataFrame) (sym : string) : Scatter :=
  {| x := index (frame_of all_data sym);
     y := Floats (col_Open (frame_of all_data sym));
     mode := "lines"; stackgroup := None; name := sym |}.

Definition close_trace (all_data : gmap string DataFrame) (sym : string) : Scatter :=
  {| x := index (frame_of all_data sym);
     y := Floats (col_Close (frame_of all_data sym));
     mode := "lines+markers"; stackgroup := None; name := sym |}.

Definition vol_trace (all_data : gmap string DataFrame) (sym : string) : Scatter :=
  {| x := index (frame_of all_data sym);
     y := Ints (col_Vol (frame_of all_data sym));
     mode := "lines"; stackgroup := Some "one"; name := sym |}.

Definition pct_trace (all_data : gmap string DataFrame) (sym : string) : Scatter :=
  {| x := index (frame_of all_data sym);
     y := Floats (Pandas.smul (Pandas.pct_change (col_Close (frame_of all_data sym)))
                              (Q2Qc 100));
     mode := "lines"; stackgroup := None; name := sym |}.

Definition figure_of (traces : list Scatter) (title x_title y_title : string) : Figure :=
  {| data := traces;
     layout := Some {| title := title; xaxis_title := x_title;
                       yaxis_title := y_title |} |}.

(** The four charts of a run, in page order. *)
Definition charts_of (all_data : gmap string DataFrame) (symbols : list string)
    : list Figure :=
  [ figure_of (map (open_trace all_data) symbols)
      "Opening Price Over Time" "Date" "Opening Price (USD)";
    figure_of (map (close_trace all_data) symbols)
      "Closing Price Over Time" "Date" "Closing Price (USD)";
    figure_of (map (vol_trace all_data) symbols)
      "Volume Traded Over Time" "Date" "Volume";
    figure_of (map (pct_trace all_data) symbols)
      "Daily Percentage Change" "Date" "Change (%)" ].

(** The snapshot row made from a ticker's last fetched row. *)
Definition snapshot_row (sym : string) (r : OHLCVRow) : SnapshotRow :=
  {| snap_Symbol := sym;
     snap_Latest_Price := round2 (Close r);
     snap_Opening_Price := round2 (Open r);
     snap_High := round2 (High r);
     snap_Low := round2 (Low r);
     snap_Volume := Volume r |}.

(** The snapshot table: one row per ticker that has a last row. *)
Definition snapshot_of (all_data : gmap string DataFrame) (symbols : list string)
    : list SnapshotRow :=
  omap (fun sym => snapshot_row sym <$> last (frame_of all_data sym)) symbols.

(** The column lists that hold the given rows. *)
Definition columns_of (rows : list SnapshotRow) : LatestData :=
  {| col_Symbol := map snap_Symbol rows;
     col_Latest_Price := map snap_Latest_Price rows;
     col_Opening_Price := map snap_Opening_Price rows;
     col_High := map snap_High rows;
     col_Low := map snap_Low rows;
     col_Volume := map snap_Volume rows |}.

(** What lines 52-121 put on the page: everything above the snapshot. *)
Definition page_above_snapshot (all_data : gmap string DataFrame)
    (symbols : list string) : list event :=
  [ Render Main (St_success "✅ Data successfully loaded!");
    Render Main (St_subheader "📋 Raw Data Preview");
    Render Main (St_expander "Click to view raw data");
    Render (Within Main "Click to view raw data")
           (St_dataframe (head (preview_of all_data symbols) 20) true);
    Render Sidebar
           (St_download_button "📥 Download CSV"
              (encode (to_csv (preview_of all_data symbols) true) "utf-8")
              "stock_data.csv" "text/csv");
    Render Main (St_subheader "🚀 Opening Stock Price Trend");
    Render Main (St_plotly_chart
                   (figure_of (map (open_trace all_data) symbols)
                      "Opening Price Over Time" "Date" "Opening Price (USD)") true);
    Render Main (St_subheader "📉 Closing Stock Price Trend");
    Render Main (St_plotly_chart
                   (figure_of (map (close_trace all_data) symbols)
                      "Closing Price Over Time" "Date" "Closing Price (USD)") true);
    Render Main (St_subheader "📊 Daily Volume Traded");
    Render Main (St_plotly_chart
                   (figure_of (map (vol_trace all_data) symbols)
                      "Volume Traded Over Time" "Date" "Volume") true);
    Render Main (St_subheader "📈 Daily % Change in Closing Price");
    Render Main (St_plotly_chart
                   (figure_of (map (pct_trace all_data) symbols)
                      "Daily Percentage Change" "Date" "Change (%)") true) ].


(** The request the data load block sends for the given inputs. *)
Definition request_of (i : Inputs) : Request :=
  {| tickers := symbols i; req_start := start_date i; req_end := end_date i;
     group_by := "ticker"; auto_adjust := true |}.

(** What lines 7-47 put on the page. *)
Definition controls_log (today : date) (i : Inputs) : list event :=
  log_of (controls today i).


(** A run that rendered every selected ticker in full: the preview, the
    four charts with one trace per ticker, and the snapshot table with one
    row per ticker. *)
Definition fully_rendered (all_data : gmap string DataFrame)
    (symbols : list string) (log : list event) : Prop :=
  dataframes log = [head (preview_of all_data symbols) 20]
  /\ charts log = charts_of all_data symbols
  /\ Forall (fun fig => legend fig = symbols) (charts log)
  /\ tables log = [snapshot_of all_data symbols]
  /\ map snap_Symbol (snapshot_of all_data symbols) = symbols.

(** The same inputs with the theme checkbox, or the refresh button, in
    another state. *)
Definition with_dark_mode (b : bool) (i : Inputs) : Inputs :=
  {| symbols := symbols i; start_date := start_date i; end_date := end_date i;
     dark_mode := b; refresh := refresh i |}.

Definition with_refresh (b : bool) (i : Inputs) : Inputs :=
  {| symbols := symbols i; start_date := start_date i; end_date := end_date i;
     dark_mode := dark_mode i; refresh := b |}.

(** *** Sample data *)

Definition aapl_day1 : OHLCVRow :=
  {| Date := mk_date 2023 1 3; Open := Q2Qc 100; High := Q2Qc 103; Low := Q2Qc 99;
     Close := Q2Qc 100; Volume := 1000 |}.

Definition aapl_day2 : OHLCVRow :=
  {| Date := mk_date 2023 1 4; Open := Q2Qc 101; High := Q2Qc 111;
     Low := Q2Qc (1005 # 10); Close := Q2Qc 110; Volume := 1500 |}.

Definition msft_day1 : OHLCVRow :=
  {| Date := mk_date 2023 1 3; Open := Q2Qc 240; High := Q2Qc 245; Low := Q2Qc 238;
     Close := Q2Qc (242125 # 1000); Volume := 3000 |}.

Definition msft_day2 : OHLCVRow :=
  {| Date := mk_date 2023 1 4; Open := Q2Qc 242; High := Q2Qc 250; Low := Q2Qc 241;
     Close := Q2Qc (248375 # 1000); Volume := 2500 |}.

Definition aapl_rows : DataFrame := [aapl_day1; aapl_day2].
Definition msft_rows : DataFrame := [msft_day1; msft_day2].

(** Both tickers fetched with two rows each. *)
Definition sample_data : gmap string DataFrame :=
  <["AAPL" := aapl_rows]> (<["MSFT" := msft_rows]> ∅).

(** [MSFT] fetched with no rows. *)
Definition partial_data : gmap string DataFrame :=
  <["AAPL" := aapl_rows]> (<["MSFT" := []]> ∅).

Definition sample_inputs : Inputs :=
  {| symbols := ["AAPL"; "MSFT"];
     start_date := mk_date 2023 1 1; end_date := mk_date 2023 1 5;
     dark_mode := false; refresh := false |}.

Definition no_selection : Inputs :=
  {| symbols := [];
     start_date := mk_date 2023 1 1; end_date := mk_date 2023 1 5;
     dark_mode := false; refresh := false |}.

Definition sample_today : date := mk_date 2024 6 1.

Definition sample_upstream (req : Request) : outcome (gmap string DataFrame) :=
  Returned sample_data.

Definition partial_upstream (req : Request) : outcome (gmap string DataFrame) :=
  Returned partial_data.



(** One ticker with one fetched row. *)
Definition one_row : OHLCVRow :=
  {| Date := mk_date 2023 1 3; Open := Q2Qc 100; High := Q2Qc 103; Low := Q2Qc 99;
     Close := Q2Qc 102; Volume := 1000 |}.

Definition one_row_inputs : Inputs :=
  {| symbols := ["AAPL"];
     start_date := mk_date 2023 1 1; end_date := mk_date 2023 1 5;
     dark_mode := false; refresh := false |}.

Definition one_row_upstream (req : Request) : outcome (gmap string DataFrame) :=
  Returned (<["AAPL" := [one_row]]> ∅).

(** An upstream that knows one selection only. *)
Definition picky_upstream (req : Request) : outcome (gmap string DataFrame) :=
  if decide (tickers req = ["AAPL"; "MSFT"])
  then Returned sample_data
  else Raised (OtherError "unknown tickers").

(** The sample inputs on another day, with the theme and the refresh
    button in the other state. *)
Definition sample_inputs_again : Inputs :=
  with_refresh true (with_dark_mode true sample_inputs).

Definition another_day : date := mk_date 2024 6 2.

(** *** More ways to read a run *)

(** The success messages of a run. *)
Definition successes (log : list event) : list string :=
  omap (fun e => match e with St_success body => Some body | _ => None end)
       (rendered log).

#[global] Instance container_eq_dec : EqDecision container.
Proof. solve_decision. Defined.

(** What a run rendered inside a given container, in order. *)
Fixpoint inside (c : container) (log : list event) : list element :=
  match log with
  | [] => []
  | Render c' e :: log' =>
      if decide (c' = c) then e :: inside c log' else inside c log'
  | _ :: log' => inside c log'
  end.

(** The number of y-values of a trace. *)
Definition ydata_length (v : ydata) : nat :=
  match v with
  | Floats values => length values
  | Ints values => length values
  end.

(** The number of fetched rows of the selected tickers. *)
Definition total_rows (all_data : gmap string DataFrame) (symbols : list string) : nat :=
  sum_list (map (fun sym => length (frame_of all_data sym)) symbols).

(** A row with every price multiplied by [k]. *)
Definition scale_row (k : Qc) (r : OHLCVRow) : OHLCVRow :=
  {| Date := Date r; Open := k * Open r; High := k * High r; Low := k * Low r;
     Close := k * Close r; Volume := Volume r |}.

(** The sample data quoted in another unit: every price doubled. *)
Definition doubled_data : gmap string DataFrame :=
  <["AAPL" := map (scale_row (Q2Qc 2)) aapl_rows]>
    (<["MSFT" := map (scale_row (Q2Qc 2)) msft_rows]> ∅).

Definition doubled_upstream (req : Request) : outcome (gmap string DataFrame) :=
  Returned doubled_data.

(** The sample data with a longer history before the same last rows. *)
Definition longer_data : gmap string DataFrame :=
  <["AAPL" := msft_day1 :: aapl_rows]> (<["MSFT" := [msft_day2]]> ∅).

Definition longer_upstream (req : Request) : outcome (gmap string DataFrame) :=
  Returned longer_data.

(** Only [AAPL] fetched. *)
Definition aapl_only_data : gmap string DataFrame := <["AAPL" := aapl_rows]> ∅.

Definition aapl_only_upstream (req : Request) : outcome (gmap string DataFrame) :=
  Returned aapl_only_data.

(** A close of zero followed by a positive close. *)
Definition zero_close_rows : DataFrame :=
  [ {| Date := mk_date 2023 1 3; Open := Q2Qc 1; High := Q2Qc 1; Low := Q2Qc 0;
       Close := Q2Qc 0; Volume := 10 |};
    {| Date := mk_date 2023 1 4; Open := Q2Qc 1; High := Q2Qc 2; Low := Q2Qc 1;
       Close := Q2Qc 2; Volume := 20 |} ].


Definition zero_close_data : gmap string DataFrame := <["AAPL" := zero_close_rows]> ∅.

Definition zero_close_upstream (req : Request) : outcome (gmap string DataFrame) :=
  Returned zero_close_data.

(** ** The monad and the loops *)

Lemma bind_ret {A B} (a : A) (k : A -> M B) : bind (ret a) k = k a.
Proof. unfold bind, ret. destruct (k a) as [log r]. reflexivity. Qed.

Lemma for_each_ret {A S} (xs : list A) (body : S -> A -> M S) (f : S -> A -> S) :
  (forall s a, a ∈ xs -> body s a = ret (f s a)) ->
  forall s, for_each xs body s = ret (fold_left f xs s).
Proof.
  induction xs as [|a xs IH]; intros Hbody s; cbn [for_each fold_left].
  - reflexivity.
  - rewrite Hbody by apply list_elem_of_here. rewrite bind_ret.
    apply IH. intros s' b Hb. apply Hbody. now apply list_elem_of_further.
Qed.

Lemma list_comp_ret {A B} (xs : list A) (f : A -> M B) (g : A -> B) :
  (forall a, a ∈ xs -> f a = ret (g a)) -> list_comp f xs = ret (map g xs).
Proof.
  induction xs as [|a xs IH]; intros Hf; cbn [list_comp map].
  - reflexivity.
  - rewrite Hf by apply list_elem_of_here. rewrite bind_ret.
    rewrite IH by (intros b Hb; apply Hf; now apply list_elem_of_further).
    now rewrite bind_ret.
Qed.

Lemma fold_add_trace {A} (t : A -> Scatter) (xs : list A) (fig : Figure) :
  fold_left (fun fig a => add_trace fig (t a)) xs fig
  = {| data := data fig ++ map t xs; layout := layout fig |}.
Proof.
  revert fig. induction xs as [|a xs IH]; intros fig; cbn [fold_left map].
  - rewrite app_nil_r. now destruct fig.
  - rewrite IH. cbn. now rewrite <- app_assoc.
Qed.

(** ** Lookups in the fetched data *)

Lemma getitem_present (all_data : gmap string DataFrame) (sym : string) :
  is_Some (all_data !! sym) -> getitem all_data sym = ret (frame_of all_data sym).
Proof. intros [df Hdf]. unfold getitem, frame_of. rewrite Hdf. reflexivity. Qed.

Lemma getitem_absent (all_data : gmap string DataFrame) (sym : string) :
  all_data !! sym = None -> getitem all_data sym = raise (KeyError sym).
Proof. intros Hdf. unfold getitem. rewrite Hdf. reflexivity. Qed.

Lemma frame_of_lookup (all_data : gmap string DataFrame) (sym : string) (df : DataFrame) :
  all_data !! sym = Some df -> frame_of all_data sym = df.
Proof. intros Hdf. unfold frame_of. rewrite Hdf. reflexivity. Qed.

(** A chart loop over tickers that all have a frame adds one trace per
    ticker, in order. *)
Lemma chart_loop (all_data : gmap string DataFrame) (symbols : list string)
    (body : Figure -> string -> M Figure) (t : string -> Scatter) :
  (forall fig sym, is_Some (all_data !! sym) -> body fig sym = ret (add_trace fig (t sym))) ->
  all_present all_data symbols ->
  for_each symbols body go_Figure = ret {| data := map t symbols; layout := None |}.
Proof.
  intros Hbody Hall.
  rewrite (for_each_ret symbols body (fun fig a => add_trace fig (t a))).
  - now rewrite fold_add_trace.
  - intros fig sym Hin. apply Hbody.
    unfold all_present in Hall. rewrite Forall_forall in Hall. now apply Hall.
Qed.

(** ** The blocks of the page *)

Lemma bind_eq {A B} (m : M A) (k : A -> M B) log a log' r :
  m = (log, Returned a) -> k a = (log', r) -> bind m k = (log ++ log', r).
Proof. intros -> Hk. cbn. now rewrite Hk. Qed.

Lemma run_eta {A} (m : M A) : m = (log_of m, result_of m).
Proof. now destruct m. Qed.

Lemma all_present_elem (all_data : gmap string DataFrame) (symbols : list string) sym :
  all_present all_data symbols -> sym ∈ symbols -> is_Some (all_data !! sym).
Proof. unfold all_present. rewrite Forall_forall. auto. Qed.

Lemma raw_data_preview_ok (all_data : gmap string DataFrame) (symbols : list string) :
  symbols <> [] -> all_present all_data symbols ->
  raw_data_preview all_data symbols
  = ([ Render Main (St_subheader "📋 Raw Data Preview");
       Render Main (St_expander "Click to view raw data");
       Render (Within Main "Click to view raw data")
              (St_dataframe (head (preview_of all_data symbols) 20) true) ],
     Returned (preview_of all_data symbols)).
Proof.
  intros Hne Hall. unfold raw_data_preview.
  eapply eq_trans.
  { eapply bind_eq; [reflexivity|].
    eapply bind_eq; [reflexivity|]. cbv beta.
    eapply bind_eq.
    { apply (list_comp_ret symbols _
               (fun sym => assign_Symbol (frame_of all_data sym) sym)).
      intros sym Hin.
      rewrite getitem_present by eauto using all_present_elem.
      now rewrite bind_ret. }
    cbv beta. eapply bind_eq.
    { unfold pd_concat. destruct symbols; [congruence | reflexivity]. }
    cbv beta. eapply bind_eq; reflexivity. }
  reflexivity.
Qed.

Ltac chart_block Hall :=
  eapply eq_trans;
  [ eapply bind_eq; [reflexivity|];
    eapply bind_eq;
    [ eapply chart_loop; [| exact Hall];
      intros fig sym Hsym; rewrite (getitem_present _ _ Hsym);
      rewrite !bind_ret; reflexivity
    | cbv beta zeta; reflexivity ]
  | reflexivity ].

Lemma opening_price_chart_ok (all_data : gmap string DataFrame) (symbols : list string) :
  all_present all_data symbols ->
  opening_price_chart all_data symbols
  = ([ Render Main (St_subheader "🚀 Opening Stock Price Trend");
       Render Main (St_plotly_chart
                      (figure_of (map (open_trace all_data) symbols)
                         "Opening Price Over Time" "Date" "Opening Price (USD)") true) ],
     Returned tt).
Proof. intros Hall. unfold opening_price_chart. chart_block Hall. Qed.

Lemma closing_price_chart_ok (all_data : gmap string DataFrame) (symbols : list string) :
  all_present all_data symbols ->
  closing_price_chart all_data symbols
  = ([ Render Main (St_subheader "📉 Closing Stock Price Trend");
       Render Main (St_plotly_chart
                      (figure_of (map (close_trace all_data) symbols)
                         "Closing Price Over Time" "Date" "Closing Price (USD)") true) ],
     Returned tt).
Proof. intros Hall. unfold closing_price_chart. chart_block Hall. Qed.

Lemma volume_chart_ok (all_data : gmap string DataFrame) (symbols : list string) :
  all_present all_data symbols ->
  volume_chart all_data symbols
  = ([ Render Main (St_subheader "📊 Daily Volume Traded");
       Render Main (St_plotly_chart
                      (figure_of (map (vol_trace all_data) symbols)
                         "Volume Traded Over Time" "Date" "Volume") true) ],
     Returned tt).
Proof. intros Hall. unfold volume_chart. chart_block Hall. Qed.

Lemma pct_change_chart_ok (all_data : gmap string DataFrame) (symbols : list string) :
  all_present all_data symbols ->
  pct_change_chart all_data symbols
  = ([ Render Main (St_subheader "📈 Daily % Change in Closing Price");
       Render Main (St_plotly_chart
                      (figure_of (map (pct_trace all_data) symbols)
                         "Daily Percentage Change" "Date" "Change (%)") true) ],
     Returned tt).
Proof. intros Hall. unfold pct_change_chart. chart_block Hall. Qed.

(** ** The snapshot block *)

Lemma int_of_of_int (z : Z) : int_of (of_int z) = z.
Proof.
  unfold int_of, of_int, Q2Qc. cbn [this].
  rewrite Qred_identity by (cbn; apply Z.gcd_1_r).
  cbn. apply Z.quot_1_r.
Qed.

Lemma zip_rows_columns (rows : list SnapshotRow) :
  zip_rows (map snap_Symbol rows) (map snap_Latest_Price rows)
           (map snap_Opening_Price rows) (map snap_High rows)
           (map snap_Low rows) (map snap_Volume rows) = rows.
Proof.
  induction rows as [|[a b c d e f] rows IH]; cbn; [reflexivity|].
  now rewrite IH.
Qed.

Lemma pd_DataFrame_columns (rows : list SnapshotRow) :
  pd_DataFrame (columns_of rows) = ret rows.
Proof.
  unfold pd_DataFrame, same_lengths, columns_of. cbn.
  rewrite !length_map, Nat.eqb_refl. cbn.
  now rewrite zip_rows_columns.
Qed.

Lemma snapshot_step_row (all_data : gmap string DataFrame) rows sym r :
  is_Some (all_data !! sym) -> last (frame_of all_data sym) = Some r ->
  snapshot_step all_data (columns_of rows) sym
  = ret (columns_of (rows ++ [snapshot_row sym r])).
Proof.
  intros Hsym Hlast. unfold snapshot_step.
  rewrite (getitem_present _ _ Hsym), bind_ret.
  unfold iloc_last. rewrite Hlast, bind_ret.
  unfold columns_of. rewrite !map_app. cbn.
  now rewrite int_of_of_int.
Qed.

Lemma snapshot_step_empty (all_data : gmap string DataFrame) latest_data sym :
  is_Some (all_data !! sym) -> frame_of all_data sym = [] ->
  snapshot_step all_data latest_data sym = raise IndexError.
Proof.
  intros Hsym Hempty. unfold snapshot_step.
  rewrite (getitem_present _ _ Hsym), bind_ret, Hempty. reflexivity.
Qed.

Lemma last_nonempty {A} (l : list A) : l <> [] -> is_Some (last l).
Proof. intros H. destruct (last l) eqn:E; [eauto|]. apply last_None in E. contradiction. Qed.

Lemma snapshot_of_cons (all_data : gmap string DataFrame) sym symbols r :
  last (frame_of all_data sym) = Some r ->
  snapshot_of all_data (sym :: symbols)
  = snapshot_row sym r :: snapshot_of all_data symbols.
Proof. intros Hr. unfold snapshot_of. simpl. now rewrite Hr. Qed.

Lemma snapshot_loop_ok (all_data : gmap string DataFrame) (symbols : list string) :
  all_present all_data symbols -> all_nonempty all_data symbols ->
  forall rows,
    for_each symbols (snapshot_step all_data) (columns_of rows)
    = ret (columns_of (rows ++ snapshot_of all_data symbols)).
Proof.
  unfold all_present, all_nonempty.
  induction symbols as [|sym symbols IH]; intros Hp Hn rows; cbn [for_each].
  - unfold snapshot_of. cbn. now rewrite app_nil_r.
  - apply Forall_cons in Hp as [Hsym Hp]. apply Forall_cons in Hn as [Hne Hn].
    destruct (last_nonempty _ Hne) as [r Hr].
    rewrite (snapshot_step_row _ rows sym r Hsym Hr), bind_ret.
    rewrite (IH Hp Hn), (snapshot_of_cons _ _ _ _ Hr).
    now rewrite <- app_assoc.
Qed.

Lemma snapshot_loop_abort (all_data : gmap string DataFrame) (symbols : list string) :
  all_present all_data symbols -> ~ all_nonempty all_data symbols ->
  forall latest_data,
    for_each symbols (snapshot_step all_data) latest_data = raise IndexError.
Proof.
  unfold all_present, all_nonempty.
  induction symbols as [|sym symbols IH]; intros Hp Hn latest_data; cbn [for_each].
  - exfalso. apply Hn. constructor.
  - apply Forall_cons in Hp as [Hsym Hp].
    destruct (frame_of all_data sym) as [|r0 df] eqn:Hdf.
    + now rewrite (snapshot_step_empty _ _ _ Hsym Hdf).
    + assert (Hlast : is_Some (last (frame_of all_data sym)))
        by (apply last_nonempty; now rewrite Hdf).
      destruct Hlast as [r Hr].
      assert (Hstep : exists latest_data',
                 snapshot_step all_data latest_data sym = ret latest_data').
      { unfold snapshot_step. rewrite (getitem_present _ _ Hsym), bind_ret.
        unfold iloc_last. rewrite Hr, bind_ret. eauto. }
      destruct Hstep as [latest_data' ->]. rewrite bind_ret.
      apply IH; [exact Hp|]. intros Hn'. apply Hn. constructor; [|exact Hn'].
      now rewrite Hdf.
Qed.

Lemma latest_snapshot_ok (all_data : gmap string DataFrame) (symbols : list string) :
  all_present all_data symbols -> all_nonempty all_data symbols ->
  latest_snapshot all_data symbols
  = ([ Render Main (St_subheader "🔍 Latest Market Snapshot");
       Render Main (St_table (snapshot_of all_data symbols)) ],
     Returned tt).
Proof.
  intros Hp Hn. unfold latest_snapshot.
  eapply eq_trans.
  { eapply bind_eq; [reflexivity|]. cbv beta zeta.
    eapply bind_eq.
    { apply (snapshot_loop_ok _ _ Hp Hn []). }
    cbv beta. eapply bind_eq; [apply pd_DataFrame_columns|]. reflexivity. }
  reflexivity.
Qed.

Lemma latest_snapshot_abort (all_data : gmap string DataFrame) (symbols : list string) :
  all_present all_data symbols -> ~ all_nonempty all_data symbols ->
  latest_snapshot all_data symbols
  = ([ Render Main (St_subheader "🔍 Latest Market Snapshot") ], Raised IndexError).
Proof.
  intros Hp Hn. unfold latest_snapshot.
  cbv zeta. rewrite (snapshot_loop_abort _ _ Hp Hn). reflexivity.
Qed.

(** ** The whole page *)

Lemma dashboard_run (all_data : gmap string DataFrame) (symbols : list string) :
  symbols <> [] -> all_present all_data symbols ->
  dashboard all_data symbols
  = (page_above_snapshot all_data symbols
       ++ log_of (latest_snapshot all_data symbols),
     result_of (latest_snapshot all_data symbols)).
Proof.
  intros Hne Hall. unfold dashboard.
  eapply eq_trans.
  { eapply bind_eq; [reflexivity|].
    eapply bind_eq; [apply (raw_data_preview_ok _ _ Hne Hall)|]. cbv beta.
    eapply bind_eq; [reflexivity|].
    eapply bind_eq; [apply (opening_price_chart_ok _ _ Hall)|].
    eapply bind_eq; [apply (closing_price_chart_ok _ _ Hall)|].
    eapply bind_eq; [apply (volume_chart_ok _ _ Hall)|].
    eapply bind_eq; [apply (pct_change_chart_ok _ _ Hall)|].
    apply run_eta. }
  reflexivity.
Qed.

(** The comprehension of line 57 stops at the first ticker without a
    frame. *)
Lemma preview_frames_keyerror (all_data : gmap string DataFrame) (symbols : list string) :
  ~ all_present all_data symbols ->
  exists key, key ∈ symbols /\ all_data !! key = None /\
    list_comp (fun sym => bind (getitem all_data sym)
                               (fun df => ret (assign_Symbol df sym))) symbols
    = raise (KeyError key).
Proof.
  unfold all_present.
  induction symbols as [|sym symbols IH]; intros Hna.
  - exfalso. apply Hna. constructor.
  - cbn [list_comp]. destruct (all_data !! sym) as [df|] eqn:Hsym.
    + destruct IH as (key & Hin & Hkey & Heq).
      { intros Hall. apply Hna. constructor; [eauto | exact Hall]. }
      exists key. split; [now apply list_elem_of_further|]. split; [exact Hkey|].
      rewrite getitem_present by eauto. rewrite !bind_ret, Heq. reflexivity.
    + exists sym. split; [apply list_elem_of_here|]. split; [exact Hsym|].
      now rewrite (getitem_absent _ _ Hsym).
Qed.

Lemma dashboard_keyerror (all_data : gmap string DataFrame) (symbols : list string) :
  ~ all_present all_data symbols ->
  exists key, key ∈ symbols /\ all_data !! key = None /\
    dashboard all_data symbols
    = ([ Render Main (St_success "✅ Data successfully loaded!");
         Render Main (St_subheader "📋 Raw Data Preview");
         Render Main (St_expander "Click to view raw data") ],
       Raised (KeyError key)).
Proof.
  intros Hna. destruct (preview_frames_keyerror _ _ Hna) as (key & Hin & Hkey & Heq).
  exists key. split; [exact Hin|]. split; [exact Hkey|].
  unfold dashboard, raw_data_preview. rewrite Heq. reflexivity.
Qed.

Lemma controls_run (today : date) (i : Inputs) :
  controls today i
  = (controls_log today i,
     Returned (symbols i, start_date i, end_date i, dark_mode i, refresh i)).
Proof. reflexivity. Qed.

Lemma script_empty (today : date) (i : Inputs) upstream :
  symbols i = [] ->
  script today i upstream
  = (controls_log today i
       ++ [ Render Main (St_warning
              "👈 Please select at least one stock symbol to view data.") ],
     Returned tt).
Proof.
  intros Hsel. unfold script. rewrite controls_run.
  eapply bind_eq; [reflexivity|]. unfold branch. now rewrite Hsel.
Qed.

Lemma script_nonempty (today : date) (i : Inputs) upstream :
  symbols i <> [] ->
  script today i upstream
  = (controls_log today i
       ++ log_of (data_load_block upstream (symbols i) (start_date i) (end_date i)),
     result_of (data_load_block upstream (symbols i) (start_date i) (end_date i))).
Proof.
  intros Hsel. unfold script. rewrite controls_run.
  eapply bind_eq; [reflexivity|]. unfold branch.
  destruct (symbols i); [congruence|]. apply run_eta.
Qed.

Lemma data_load_block_fetched (i : Inputs) upstream all_data :
  upstream (request_of i) = Returned all_data ->
  data_load_block upstream (symbols i) (start_date i) (end_date i)
  = (Fetch (request_of i) :: log_of (dashboard all_data (symbols i)),
     result_of (dashboard all_data (symbols i))).
Proof.
  intros Hup. unfold data_load_block, yf_download.
  change {| tickers := symbols i; req_start := start_date i; req_end := end_date i;
            group_by := "ticker"; auto_adjust := true |} with (request_of i).
  rewrite Hup. apply (bind_eq _ _ [Fetch (request_of i)] all_data);
    [reflexivity | apply run_eta].
Qed.

Lemma data_load_block_failed (i : Inputs) upstream e :
  upstream (request_of i) = Raised e ->
  data_load_block upstream (symbols i) (start_date i) (end_date i)
  = ([Fetch (request_of i)], Raised e).
Proof.
  intros Hup. unfold data_load_block, yf_download.
  change {| tickers := symbols i; req_start := start_date i; req_end := end_date i;
            group_by := "ticker"; auto_adjust := true |} with (request_of i).
  rewrite Hup. reflexivity.
Qed.

(** A run on a non-empty selection whose tickers all have a frame. *)
Lemma script_fetched (today : date) (i : Inputs) upstream all_data :
  symbols i <> [] ->
  upstream (request_of i) = Returned all_data ->
  all_present all_data (symbols i) ->
  script today i upstream
  = (controls_log today i
       ++ Fetch (request_of i) :: page_above_snapshot all_data (symbols i)
       ++ log_of (latest_snapshot all_data (symbols i)),
     result_of (latest_snapshot all_data (symbols i))).
Proof.
  intros Hsel Hup Hall.
  rewrite (script_nonempty _ _ _ Hsel), (data_load_block_fetched _ _ _ Hup).
  rewrite (dashboard_run _ _ Hsel Hall). reflexivity.
Qed.

(** ** Rounding *)

Lemma rint_half (x : Qc) :
  (2 * rint x * QDen x - QDen x <= 2 * Qnum x <= 2 * rint x * QDen x + QDen x)%Z.
Proof.
  unfold rint. cbv zeta.
  pose proof (Z.div_mod (Qnum x) (QDen x) ltac:(lia)) as Hdm.
  pose proof (Z.mod_pos_bound (Qnum x) (QDen x) ltac:(lia)) as Hr.
  destruct (Z.compare_spec (2 * (Qnum x mod QDen x)) (QDen x)) as [E|E|E].
  - destruct (Z.even (Qnum x / QDen x)); nia.
  - nia.
  - nia.
Qed.

(** [rint] is within one half of its argument. *)
Lemma rint_nearest (x : Qc) :
  (inject_Z (rint x) - (1 # 2) <= x <= inject_Z (rint x) + (1 # 2))%Q.
Proof.
  pose proof (rint_half x) as [H1 H2].
  destruct x as [[n d] Hc]. cbn [this Qnum Qden] in *.
  set (k := rint _) in *. clearbody k.
  unfold Qle, Qminus, Qplus, Qopp, inject_Z. cbn. split; nia.
Qed.

(** On a tie, [rint] is even. *)
Lemma rint_tie_even (x : Qc) :
  (2 * (Qnum x mod QDen x) = QDen x)%Z -> Z.even (rint x) = true.
Proof.
  intros Htie. unfold rint. cbv zeta. rewrite Htie, Z.compare_refl.
  destruct (Z.even (Qnum x / QDen x)) eqn:E; [exact E|].
  rewrite Z.even_add, E. reflexivity.
Qed.


(** ** The percent-change series *)

Lemma Qc_is_zero_true (q : Qc) : Qc_is_zero q = true -> q = Q2Qc 0.
Proof.
unfold Qc_is_zero. intros H. apply Z.eqb_eq in H.
apply Qc_is_canon. destruct q as [[n d] Hc]. cbn in *. subst n. reflexivity.
Qed.

Lemma Qc_is_zero_false (q : Qc) : Qc_is_zero q = false -> q <> Q2Qc 0.
Proof.
unfold Qc_is_zero. intros H Hq. apply Z.eqb_neq in H. apply H.
rewrite Hq. reflexivity.
Qed.

Lemma Qc_nonzero_is_zero (q : Qc) : q <> Q2Qc 0 -> Qc_is_zero q = false.
Proof.
intros Hq. destruct (Qc_is_zero q) eqn:E; [|reflexivity].
now apply Qc_is_zero_true in E.
Qed.

(** In exact arithmetic the two formulas agree on every pair of closes,
  a zero previous close included. *)
Lemma code_percent_change_spec (c p : Qc) :
code_percent_change c p = spec_percent_change c p.
Proof.
unfold code_percent_change, spec_percent_change. cbn [fsub fdiv].
destruct (Qc_is_zero p) eqn:Hp.
- apply Qc_is_zero_true in Hp. subst p.
  replace (c - Q2Qc 0) with c by ring.
  destruct (Qc_is_zero c); [reflexivity|].
  destruct (Qc_is_neg c); reflexivity.
- apply Qc_is_zero_false in Hp. cbn [fsub fmul]. f_equal. now field.
Qed.

Lemma spec_percent_change_finite (c p : Qc) :
p <> Q2Qc 0 -> spec_percent_change c p = Fin ((c - p) / p * Q2Qc 100).
Proof.
intros Hp. unfold spec_percent_change. cbn [fsub fdiv].
now rewrite (Qc_nonzero_is_zero _ Hp).
Qed.

Lemma zip_with_take_length {A B C} (f : A -> B -> C) (l : list A) (k : list B) :
zip_with f l (take (length l) k) = zip_with f l k.
Proof.
revert k. induction l as [|a l IH]; intros [|b k]; cbn; try reflexivity.
now rewrite IH.
Qed.

Lemma pct_change_tail (cs : list Qc) (p : Qc) :
map (fun v => fmul v (Fin (Q2Qc 100)))
    (map (fun v => fsub v (Fin 1))
         (zip_with fdiv (map Fin cs) (map Fin (p :: cs))))
= zip_with code_percent_change cs (p :: cs).
Proof.
revert p. induction cs as [|c cs IH]; intros p; [reflexivity|].
cbn [map zip_with]. f_equal. apply IH.
Qed.

(** The series of line 113 on a non-empty column of closes: a missing
  first value, then one percent change per pair of neighbours. *)
Lemma pct_change_closes (c0 : Qc) (cs : list Qc) :
Pandas.smul (Pandas.pct_change (map Fin (c0 :: cs))) (Q2Qc 100)
= NaN :: zip_with code_percent_change cs (c0 :: cs).
Proof.
unfold Pandas.smul, Pandas.pct_change, Pandas.shift.
rewrite zip_with_take_length. cbn [map zip_with fdiv fsub fmul].
f_equal. apply pct_change_tail.
Qed.

Lemma zip_with_neighbours_lookup (cs : list Qc) (c0 : Qc) (t : nat) (c p : Qc) :
(c0 :: cs) !! t = Some p -> cs !! t = Some c ->
zip_with code_percent_change cs (c0 :: cs) !! t = Some (code_percent_change c p).
Proof.
intros Hp Hc. rewrite lookup_zip_with, Hc, Hp. reflexivity.
Qed.


(** ** Runs of the script *)

Lemma script_split (today : date) (i : Inputs) upstream :
  script today i upstream
  = (controls_log today i
       ++ log_of (branch upstream (symbols i) (start_date i) (end_date i)),
     result_of (branch upstream (symbols i) (start_date i) (end_date i))).
Proof.
  unfold script. rewrite controls_run.
  eapply bind_eq; [reflexivity | apply run_eta].
Qed.

(** The branch consults the upstream at one request only. *)
Lemma branch_ext upstream1 upstream2 (symbols : list string) (start_date end_date : date) :
  upstream1 {| tickers := symbols; req_start := start_date; req_end := end_date;
               group_by := "ticker"; auto_adjust := true |}
  = upstream2 {| tickers := symbols; req_start := start_date; req_end := end_date;
                 group_by := "ticker"; auto_adjust := true |} ->
  branch upstream1 symbols start_date end_date
  = branch upstream2 symbols start_date end_date.
Proof.
  intros Hup. unfold branch. destruct symbols as [|sym symbols]; [reflexivity|].
  unfold data_load_block, yf_download. now rewrite Hup.
Qed.

Lemma all_nonempty_cases (all_data : gmap string DataFrame) (symbols : list string) :
  all_nonempty all_data symbols \/ ~ all_nonempty all_data symbols.
Proof.
  unfold all_nonempty. induction symbols as [|sym symbols [IH|IH]].
  - left. constructor.
  - destruct (frame_of all_data sym) eqn:Hdf.
    + right. intros H. apply Forall_cons in H as [H _]. now apply H.
    + left. constructor; [now rewrite Hdf | exact IH].
  - right. intros H. apply Forall_cons in H as [_ H]. now apply IH.
Qed.

Lemma all_present_cases (all_data : gmap string DataFrame) (symbols : list string) :
  all_present all_data symbols \/ ~ all_present all_data symbols.
Proof. unfold all_present. destruct (decide (Forall (fun sym => is_Some (all_data !! sym)) symbols)); eauto. Qed.

(** A run that fetched a frame for every ticker, all of them non-empty. *)
Lemma script_complete (today : date) (i : Inputs) upstream all_data :
  symbols i <> [] ->
  upstream (request_of i) = Returned all_data ->
  all_present all_data (symbols i) -> all_nonempty all_data (symbols i) ->
  script today i upstream
  = (controls_log today i
       ++ Fetch (request_of i) :: page_above_snapshot all_data (symbols i)
       ++ [ Render Main (St_subheader "🔍 Latest Market Snapshot");
            Render Main (St_table (snapshot_of all_data (symbols i))) ],
     Returned tt).
Proof.
  intros Hsel Hup Hp Hn.
  rewrite (script_fetched _ _ _ _ Hsel Hup Hp), (latest_snapshot_ok _ _ Hp Hn).
  reflexivity.
Qed.

(** A run that fetched a frame for every ticker, one of them empty. *)
Lemma script_aborted (today : date) (i : Inputs) upstream all_data :
  symbols i <> [] ->
  upstream (request_of i) = Returned all_data ->
  all_present all_data (symbols i) -> ~ all_nonempty all_data (symbols i) ->
  script today i upstream
  = (controls_log today i
       ++ Fetch (request_of i) :: page_above_snapshot all_data (symbols i)
       ++ [ Render Main (St_subheader "🔍 Latest Market Snapshot") ],
     Raised IndexError).
Proof.
  intros Hsel Hup Hp Hn.
  rewrite (script_fetched _ _ _ _ Hsel Hup Hp), (latest_snapshot_abort _ _ Hp Hn).
  reflexivity.
Qed.

(** What the page shows of the fetched data does not depend on how the
    snapshot block ends. *)
Lemma script_page_above (today : date) (i : Inputs) upstream all_data :
  symbols i <> [] ->
  upstream (request_of i) = Returned all_data ->
  all_present all_data (symbols i) ->
  let log := log_of (script today i upstream) in
  fetches log = [request_of i]
  /\ dataframes log = [head (preview_of all_data (symbols i)) 20]
  /\ downloads log
     = [(encode (to_csv (preview_of all_data (symbols i)) true) "utf-8",
         "stock_data.csv", "text/csv")]
  /\ charts log = charts_of all_data (symbols i).
Proof.
  intros Hsel Hup Hp.
  destruct (all_nonempty_cases all_data (symbols i)) as [Hn|Hn].
  - rewrite (script_complete _ _ _ _ Hsel Hup Hp Hn). repeat split; reflexivity.
  - rewrite (script_aborted _ _ _ _ Hsel Hup Hp Hn). repeat split; reflexivity.
Qed.

Lemma charts_of_legends (all_data : gmap string DataFrame) (symbols : list string) :
  Forall (fun fig => legend fig = symbols) (charts_of all_data symbols).
Proof.
  unfold charts_of.
  repeat (apply Forall_cons; split;
          [unfold legend, figure_of; cbn [data]; rewrite map_map; apply map_id|]).
  apply Forall_nil. exact I.
Qed.

(** ** The snapshot table *)

Lemma filter_none {A} (P : A -> Prop) `{forall a, Decision (P a)} (l : list A) :
  (forall a, a ∈ l -> ~ P a) -> filter P l = [].
Proof.
  induction l as [|a l IH]; intros Hl; [reflexivity|].
  rewrite filter_cons_False by (apply Hl, list_elem_of_here).
  apply IH. intros b Hb. apply Hl. now apply list_elem_of_further.
Qed.

Lemma snapshot_of_symbols (all_data : gmap string DataFrame) (symbols : list string) :
  all_nonempty all_data symbols ->
  map snap_Symbol (snapshot_of all_data symbols) = symbols.
Proof.
  unfold all_nonempty. induction symbols as [|sym symbols IH]; intros Hn; [reflexivity|].
  apply Forall_cons in Hn as [Hne Hn].
  destruct (last_nonempty _ Hne) as [r Hr].
  rewrite (snapshot_of_cons _ _ _ _ Hr). cbn. now rewrite IH.
Qed.




(** ** The preview table *)


Lemma preview_of_cons (all_data : gmap string DataFrame) sym symbols :
  preview_of all_data (sym :: symbols)
  = assign_Symbol (frame_of all_data sym) sym ++ preview_of all_data symbols.
Proof. reflexivity. Qed.

Lemma preview_of_tags_elem (all_data : gmap string DataFrame) symbols row :
  row ∈ preview_of all_data symbols -> Symbol row ∈ symbols.
Proof.
  induction symbols as [|sym symbols IH]; [intros H; now apply elem_of_nil in H|].
  rewrite preview_of_cons, elem_of_app. intros [Hrow|Hrow].
  - unfold assign_Symbol in Hrow. apply list_elem_of_fmap in Hrow as (r & -> & _).
    apply list_elem_of_here.
  - apply list_elem_of_further. now apply IH.
Qed.

Lemma preview_filter_absent (all_data : gmap string DataFrame) symbols sym :
  sym ∉ symbols ->
  filter (fun row => Symbol row = sym) (preview_of all_data symbols) = [].
Proof.
  intros Hnot. apply filter_none. intros row Hrow Heq.
  apply Hnot. rewrite <- Heq. now apply preview_of_tags_elem in Hrow.
Qed.

Lemma filter_assign_same (df : DataFrame) (sym : string) :
  filter (fun row => Symbol row = sym) (assign_Symbol df sym) = assign_Symbol df sym.
Proof.
  unfold assign_Symbol. induction df as [|r df IH]; [reflexivity|]. cbn [map].
  rewrite filter_cons_True by reflexivity. now rewrite IH.
Qed.

Lemma filter_assign_other (df : DataFrame) (sym sym' : string) :
  sym' <> sym ->
  filter (fun row => Symbol row = sym) (assign_Symbol df sym') = [].
Proof.
  intros Hneq. unfold assign_Symbol. induction df as [|r df IH]; [reflexivity|]. cbn [map].
  now rewrite filter_cons_False by (cbn; congruence).
Qed.

(** The rows of one ticker in the preview table are its fetched rows, in
    the order fetched. *)
Lemma preview_filter (all_data : gmap string DataFrame) symbols sym :
  NoDup symbols -> sym ∈ symbols ->
  filter (fun row => Symbol row = sym) (preview_of all_data symbols)
  = assign_Symbol (frame_of all_data sym) sym.
Proof.
  intros Hnd Hin.
  induction symbols as [|a symbols IH]; [now apply elem_of_nil in Hin|].
  apply NoDup_cons in Hnd as [Ha Hnd].
  rewrite preview_of_cons, filter_app.
  destruct (decide (a = sym)) as [->|Hneq].
  - rewrite filter_assign_same, (preview_filter_absent _ _ _ Ha). apply app_nil_r.
  - rewrite (filter_assign_other _ _ _ Hneq). cbn [app].
    apply IH; [exact Hnd|].
    apply elem_of_cons in Hin as [Heq|Hin]; [congruence | exact Hin].
Qed.



(** ** The properties of the dashboard *)



(** C3.  For a non-empty selection whose symbols all have a fetched
    frame, the preview table is the concatenation, in selection order, of
    every symbol's fetched rows tagged with the symbol; the rows of each
    symbol keep their fetched order; the page shows the first 20 rows of
    that table, and the CSV download is made from the whole table. *)
Theorem preview_table_concatenation (today : date) (i : Inputs) upstream all_data :
  symbols i <> [] ->
  upstream (request_of i) = Returned all_data ->
  all_present all_data (symbols i) ->
  let log := log_of (script today i upstream) in
  let preview_data :=
    concat (map (fun sym => map (fun r => {| ohlcv := r; Symbol := sym |})
                                (frame_of all_data sym))
                (symbols i)) in
  dataframes log = [take 20 preview_data]
  /\ downloads log
     = [(encode (to_csv preview_data true) "utf-8", "stock_data.csv", "text/csv")]
  /\ (NoDup (symbols i) -> forall sym, sym ∈ symbols i ->
        filter (fun row => Symbol row = sym) preview_data
        = map (fun r => {| ohlcv := r; Symbol := sym |}) (frame_of all_data sym)).
Proof.
  intros Hsel Hup Hp log preview_data.
  destruct (script_page_above today i upstream all_data Hsel Hup Hp)
    as (_ & Hdfs & Hdown & _).
  split; [exact Hdfs|]. split; [exact Hdown|].
  intros Hnd sym Hin. now apply preview_filter.
Qed.


(** C5.  With no symbol selected the run sends no fetch, renders the
    warning that asks for at least one symbol, renders no preview, no chart,
    no table and no download button, and ends normally. *)
Theorem empty_selection_warns (today : date) (i : Inputs) upstream :
  symbols i = [] ->
  let run := script today i upstream in
  fetches (log_of run) = []
  /\ warnings (log_of run)
     = ["👈 Please select at least one stock symbol to view data."]
  /\ dataframes (log_of run) = []
  /\ downloads (log_of run) = []
  /\ charts (log_of run) = []
  /\ tables (log_of run) = []
  /\ result_of run = Returned tt.
Proof.
  intros Hsel run. unfold run. rewrite (script_empty _ _ _ Hsel).
  repeat split; reflexivity.
Qed.

(** C6.  A selected symbol whose fetched frame is empty ends the run with
    an IndexError at the snapshot block, before any snapshot table is
    rendered; a fetch that raises ends the run with no table, chart or
    download rendered; and every run either ends with an exception, or had
    nothing selected, or rendered every selected symbol in full. *)
Theorem empty_series_aborts (today : date) (i : Inputs) upstream :
  let run := script today i upstream in
  (forall all_data,
      symbols i <> [] ->
      upstream (request_of i) = Returned all_data ->
      all_present all_data (symbols i) ->
      ~ all_nonempty all_data (symbols i) ->
      result_of run = Raised IndexError /\ tables (log_of run) = [])
  /\ (forall e,
        symbols i <> [] ->
        upstream (request_of i) = Raised e ->
        result_of run = Raised e
        /\ dataframes (log_of run) = [] /\ downloads (log_of run) = []
        /\ charts (log_of run) = [] /\ tables (log_of run) = [])
  /\ ((exists e, result_of run = Raised e)
      \/ (result_of run = Returned tt
          /\ (symbols i = []
              \/ exists all_data,
                   upstream (request_of i) = Returned all_data
                   /\ fully_rendered all_data (symbols i) (log_of run)))).
Proof.
  intros run. split; [|split].
  - intros all_data Hsel Hup Hp Hn. unfold run.
    rewrite (script_aborted _ _ _ _ Hsel Hup Hp Hn). split; reflexivity.
  - intros e Hsel Hup. unfold run.
    rewrite (script_nonempty _ _ _ Hsel), (data_load_block_failed _ _ _ Hup).
    repeat split; reflexivity.
  - destruct (symbols i) as [|s0 ss] eqn:Hsyms.
    { right. unfold run. rewrite (script_empty _ _ _ Hsyms). split; [reflexivity | now left]. }
    assert (Hsel : symbols i <> []) by (rewrite Hsyms; discriminate).
    rewrite <- Hsyms in *. clear s0 ss Hsyms.
    destruct (upstream (request_of i)) as [all_data|e] eqn:Hup.
    + destruct (all_present_cases all_data (symbols i)) as [Hp|Hp].
      * destruct (all_nonempty_cases all_data (symbols i)) as [Hn|Hn].
        -- right. unfold run. rewrite (script_complete _ _ _ _ Hsel Hup Hp Hn).
           split; [reflexivity|]. right. exists all_data. split; [reflexivity|].
           unfold fully_rendered. repeat split; try reflexivity.
           ++ apply charts_of_legends.
           ++ now apply snapshot_of_symbols.
        -- left. exists IndexError. unfold run.
           now rewrite (script_aborted _ _ _ _ Hsel Hup Hp Hn).
      * left. destruct (dashboard_keyerror _ _ Hp) as (key & _ & _ & Hdash).
        exists (KeyError key). unfold run.
        rewrite (script_nonempty _ _ _ Hsel), (data_load_block_fetched _ _ _ Hup), Hdash.
        reflexivity.
    + left. exists e. unfold run.
      now rewrite (script_nonempty _ _ _ Hsel), (data_load_block_failed _ _ _ Hup).
Qed.

(** C7.  Two runs with the same selected symbols, the same start and end
    dates and the same answer of the upstream to their request render the
    same preview, the same download, the same charts and the same snapshot
    table, and end the same way. *)
Theorem rerun_deterministic (today1 today2 : date) (i1 i2 : Inputs) upstream1 upstream2 :
  symbols i1 = symbols i2 ->
  start_date i1 = start_date i2 ->
  end_date i1 = end_date i2 ->
  upstream1 (request_of i1) = upstream2 (request_of i2) ->
  let run1 := script today1 i1 upstream1 in
  let run2 := script today2 i2 upstream2 in
  dataframes (log_of run1) = dataframes (log_of run2)
  /\ downloads (log_of run1) = downloads (log_of run2)
  /\ charts (log_of run1) = charts (log_of run2)
  /\ tables (log_of run1) = tables (log_of run2)
  /\ fetches (log_of run1) = fetches (log_of run2)
  /\ result_of run1 = result_of run2.
Proof.
  intros Hsym Hstart Hend Hup run1 run2. unfold run1, run2.
  rewrite !script_split.
  assert (Hbranch : branch upstream1 (symbols i1) (start_date i1) (end_date i1)
                    = branch upstream2 (symbols i2) (start_date i2) (end_date i2)).
  { rewrite <- Hsym, <- Hstart, <- Hend. apply branch_ext.
    unfold request_of in Hup. now rewrite <- Hsym, <- Hstart, <- Hend in Hup. }
  rewrite Hbranch. repeat split; reflexivity.
Qed.

(** C8.  On a non-empty selection whose symbols all have a fetched frame,
    the run renders one download button, in the sidebar: its content is
    the preview table written as CSV with the index column and encoded as
    UTF-8, its file name is stock_data.csv and its MIME type text/csv. *)
Theorem csv_download_button (today : date) (i : Inputs) upstream all_data :
  symbols i <> [] ->
  upstream (request_of i) = Returned all_data ->
  all_present all_data (symbols i) ->
  let log := log_of (script today i upstream) in
  let csv_data := encode (to_csv (preview_of all_data (symbols i)) true) "utf-8" in
  Render Sidebar (St_download_button "📥 Download CSV" csv_data
                    "stock_data.csv" "text/csv") ∈ log
  /\ downloads log = [(csv_data, "stock_data.csv", "text/csv")].
Proof.
  intros Hsel Hup Hp log csv_data. split.
  - unfold log. rewrite (script_fetched _ _ _ _ Hsel Hup Hp).
    cbn [log_of fst]. rewrite elem_of_app. right.
    apply list_elem_of_further. unfold page_above_snapshot.
    rewrite elem_of_app. left.
    do 4 apply list_elem_of_further. apply list_elem_of_here.
  - now destruct (script_page_above today i upstream all_data Hsel Hup Hp)
      as (_ & _ & Hdown & _).
Qed.

(** C9.  The state of the theme checkbox changes nothing: the run with
    the checkbox in any state is the run with it in the state it has, event
    for event (the fetch request, every table, chart and download) and in
    how it ends. *)
Theorem dark_mode_cosmetic (today : date) (i : Inputs) upstream (b : bool) :
  script today (with_dark_mode b i) upstream = script today i upstream.
Proof. reflexivity. Qed.

(** C10.  The value of the refresh button is not consulted: the run with
    the button pressed is the run with it not pressed, event for event and
    in how it ends. *)
Theorem refresh_not_consulted (today : date) (i : Inputs) upstream (b : bool) :
  script today (with_refresh b i) upstream = script today i upstream.
Proof. reflexivity. Qed.

(** ** More properties of the script *)

(** *** Missing frames *)

Lemma preview_frames_first_missing (all_data : gmap string DataFrame)
    (before after : list string) (key : string) :
  all_present all_data before ->
  all_data !! key = None ->
  list_comp (fun sym => bind (getitem all_data sym)
                             (fun df => ret (assign_Symbol df sym)))
            (before ++ key :: after)
  = raise (KeyError key).
Proof.
  unfold all_present. intros Hp Hkey.
  induction before as [|sym before IH]; cbn [app list_comp].
  - now rewrite (getitem_absent _ _ Hkey).
  - apply Forall_cons in Hp as [Hsym Hp].
    rewrite (getitem_present _ _ Hsym), !bind_ret, (IH Hp). reflexivity.
Qed.

(** X1.  When the fetched data has no frame for a selected symbol, the run
    ends with a KeyError for the first such symbol in selection order.
    The success message and the raw-data expander are already on the page;
    the expander stays empty and no preview, download, chart or table is
    rendered. *)
Theorem missing_frame_keyerror (today : date) (i : Inputs) upstream all_data
    (before after : list string) (key : string) :
  upstream (request_of i) = Returned all_data ->
  symbols i = before ++ key :: after ->
  all_present all_data before ->
  all_data !! key = None ->
  let run := script today i upstream in
  result_of run = Raised (KeyError key)
  /\ successes (log_of run) = ["✅ Data successfully loaded!"]
  /\ St_expander "Click to view raw data" ∈ inside Main (log_of run)
  /\ inside (Within Main "Click to view raw data") (log_of run) = []
  /\ dataframes (log_of run) = []
  /\ downloads (log_of run) = []
  /\ charts (log_of run) = []
  /\ tables (log_of run) = [].
Proof.
  intros Hup Hsyms Hp Hkey run.
  assert (Hsel : symbols i <> []) by (rewrite Hsyms; now destruct before).
  assert (Hdash : dashboard all_data (symbols i)
                  = ([ Render Main (St_success "✅ Data successfully loaded!");
                       Render Main (St_subheader "📋 Raw Data Preview");
                       Render Main (St_expander "Click to view raw data") ],
                     Raised (KeyError key))).
  { unfold dashboard, raw_data_preview.
    rewrite Hsyms, (preview_frames_first_missing _ _ _ _ Hp Hkey). reflexivity. }
  unfold run.
  rewrite (script_nonempty _ _ _ Hsel), (data_load_block_fetched _ _ _ Hup), Hdash.
  repeat split; try reflexivity.
  cbn. do 4 apply list_elem_of_further. apply list_elem_of_here.
Qed.

(** *** The fetch *)

Lemma dashboard_shape (all_data : gmap string DataFrame) (symbols : list string) :
  symbols <> [] ->
  exists rest,
    log_of (dashboard all_data symbols)
    = Render Main (St_success "✅ Data successfully loaded!") :: rest
    /\ fetches rest = [] /\ successes rest = [].
Proof.
  intros Hsel.
  destruct (all_present_cases all_data symbols) as [Hp|Hp].
  - rewrite (dashboard_run _ _ Hsel Hp).
    destruct (all_nonempty_cases all_data symbols) as [Hn|Hn].
    + rewrite (latest_snapshot_ok _ _ Hp Hn). eexists. split; [reflexivity|].
      split; reflexivity.
    + rewrite (latest_snapshot_abort _ _ Hp Hn). eexists. split; [reflexivity|].
      split; reflexivity.
  - destruct (dashboard_keyerror _ _ Hp) as (key & _ & _ & ->).
    eexists. split; [reflexivity|]. split; reflexivity.
Qed.

Lemma fetches_after_controls (today : date) (i : Inputs) req msg rest :
  fetches (controls_log today i ++ Fetch req :: Render Main (St_success msg) :: rest)
  = req :: fetches rest.
Proof. reflexivity. Qed.

Lemma successes_after_controls (today : date) (i : Inputs) req msg rest :
  successes (controls_log today i ++ Fetch req :: Render Main (St_success msg) :: rest)
  = msg :: successes rest.
Proof. reflexivity. Qed.

(** X2.  A run on a non-empty selection sends exactly one fetch, whatever
    the upstream answers: for the selected symbols as they are, the start
    and end dates as they are (an end before the start included), grouped
    by ticker and with adjusted prices.  The success message is rendered
    exactly when the upstream returns. *)
Theorem one_fetch_per_run (today : date) (i : Inputs) upstream :
  symbols i <> [] ->
  let run := script today i upstream in
  fetches (log_of run)
  = [ {| tickers := symbols i; req_start := start_date i; req_end := end_date i;
         group_by := "ticker"; auto_adjust := true |} ]
  /\ ((exists all_data, upstream (request_of i) = Returned all_data) ->
      successes (log_of run) = ["✅ Data successfully loaded!"])
  /\ (forall e, upstream (request_of i) = Raised e ->
      successes (log_of run) = [] /\ result_of run = Raised e).
Proof.
  intros Hsel run. unfold run. rewrite (script_nonempty _ _ _ Hsel).
  destruct (upstream (request_of i)) as [all_data|e] eqn:Hup.
  - rewrite (data_load_block_fetched _ _ _ Hup).
    destruct (dashboard_shape all_data (symbols i) Hsel) as (rest & -> & Hf & Hs).
    cbn [log_of result_of fst snd].
    rewrite fetches_after_controls, successes_after_controls, Hf, Hs.
    split; [reflexivity|]. split.
    + intros _. reflexivity.
    + intros e He. discriminate He.
  - rewrite (data_load_block_failed _ _ _ Hup). split; [reflexivity|]. split.
    + intros [all_data Hall]. discriminate Hall.
    + intros e' He'. injection He' as <-. split; reflexivity.
Qed.

(** *** How a run ends *)



(** X4.  When every selected symbol has a frame and one of them was
    fetched with no rows, the page above the snapshot is complete: the
    preview, the download and the four charts are rendered as in a run
    that succeeds; the snapshot heading is the last thing rendered, and no
    snapshot table follows. *)
Theorem abort_leaves_page_above_snapshot (today : date) (i : Inputs) upstream all_data :
  symbols i <> [] ->
  upstream (request_of i) = Returned all_data ->
  all_present all_data (symbols i) ->
  ~ all_nonempty all_data (symbols i) ->
  let run := script today i upstream in
  result_of run = Raised IndexError
  /\ dataframes (log_of run) = [head (preview_of all_data (symbols i)) 20]
  /\ downloads (log_of run)
     = [(encode (to_csv (preview_of all_data (symbols i)) true) "utf-8",
         "stock_data.csv", "text/csv")]
  /\ charts (log_of run) = charts_of all_data (symbols i)
  /\ last (log_of run)
     = Some (Render Main (St_subheader "🔍 Latest Market Snapshot"))
  /\ tables (log_of run) = [].
Proof.
  intros Hsel Hup Hp Hn run. unfold run.
  rewrite (script_aborted _ _ _ _ Hsel Hup Hp Hn).
  repeat split; reflexivity.
Qed.

(** *** The snapshot columns *)

Lemma same_lengths_spec (d : LatestData) :
  same_lengths d = true <->
  length (col_Latest_Price d) = length (col_Symbol d)
  /\ length (col_Opening_Price d) = length (col_Symbol d)
  /\ length (col_High d) = length (col_Symbol d)
  /\ length (col_Low d) = length (col_Symbol d)
  /\ length (col_Volume d) = length (col_Symbol d).
Proof.
  unfold same_lengths. cbv zeta.
  rewrite !andb_true_iff, !Nat.eqb_eq. tauto.
Qed.

Lemma zip_rows_length (a : list string) (b c d e : list Qc) (f : list Z) :
  length b = length a -> length c = length a -> length d = length a ->
  length e = length a -> length f = length a ->
  length (zip_rows a b c d e f) = length a.
Proof.
  revert b c d e f.
  induction a as [|a0 a IH]; intros [|b0 b] [|c0 c] [|d0 d] [|e0 e] [|f0 f];
    cbn; try discriminate; try reflexivity.
  intros Hb Hc Hd He Hf. f_equal. apply IH; congruence.
Qed.

Lemma snapshot_step_cases (all_data : gmap string DataFrame)
    (latest_data : LatestData) (sym : string) :
  (exists e, snapshot_step all_data latest_data sym = raise e)
  \/ exists r,
       snapshot_step all_data latest_data sym
       = ret {| col_Symbol := col_Symbol latest_data ++ [sym];
                col_Latest_Price := col_Latest_Price latest_data ++ [round2 (Close r)];
                col_Opening_Price := col_Opening_Price latest_data ++ [round2 (Open r)];
                col_High := col_High latest_data ++ [round2 (High r)];
                col_Low := col_Low latest_data ++ [round2 (Low r)];
                col_Volume := col_Volume latest_data ++ [Volume r] |}.
Proof.
  unfold snapshot_step, getitem.
  destruct (all_data !! sym) as [df|]; [|left; eexists; reflexivity].
  rewrite bind_ret. unfold iloc_last.
  destruct (last df) as [r|]; [|left; eexists; reflexivity].
  right. exists r. rewrite bind_ret. cbn. now rewrite int_of_of_int.
Qed.

(** X5.  The snapshot loop keeps its six column lists in step: started
    on columns of one length, a loop that comes to its end has added the
    symbols, in order, to the Symbol column and one value to every other
    column per symbol, has rendered nothing, and leaves columns from which
    pd.DataFrame builds a table with one row per entry. *)
Theorem snapshot_columns_stay_aligned (all_data : gmap string DataFrame)
    (symbols : list string) (latest_data latest_data' : LatestData)
    (log : list event) :
  same_lengths latest_data = true ->
  for_each symbols (snapshot_step all_data) latest_data = (log, Returned latest_data') ->
  log = []
  /\ col_Symbol latest_data' = col_Symbol latest_data ++ symbols
  /\ same_lengths latest_data' = true
  /\ exists rows, pd_DataFrame latest_data' = ret rows
                  /\ length rows = length (col_Symbol latest_data').
Proof.
  revert latest_data log.
  induction symbols as [|sym symbols IH]; intros latest_data log Hlen Hrun.
  - cbn in Hrun. injection Hrun as <- <-.
    split; [reflexivity|]. split; [now rewrite app_nil_r|]. split; [exact Hlen|].
    unfold pd_DataFrame. rewrite Hlen. eexists. split; [reflexivity|].
    apply same_lengths_spec in Hlen as (Hb & Hc & Hd & He & Hf).
    now apply zip_rows_length.
  - cbn [for_each] in Hrun.
    destruct (snapshot_step_cases all_data latest_data sym) as [[e He]|[r Hr]].
    + rewrite He in Hrun. discriminate Hrun.
    + rewrite Hr, bind_ret in Hrun.
      apply IH in Hrun as (Hlog & Hsym & Hlen' & Hrows).
      * split; [exact Hlog|]. split; [|split; assumption].
        rewrite Hsym. cbn [col_Symbol]. now rewrite <- app_assoc.
      * apply same_lengths_spec in Hlen as (Hb & Hc & Hd & He & Hf).
        apply same_lengths_spec. cbn. rewrite !length_app. cbn. lia.
Qed.

(** *** The charts *)

(** X6.  On a non-empty selection whose symbols all have a frame, the
    first chart is the opening-price chart: one line per selected symbol,
    in selection order, with the dates of the symbol's fetched rows as x
    and their opening prices as y, titled and labelled as in the source. *)
Theorem opening_price_chart_series (today : date) (i : Inputs) upstream all_data :
  symbols i <> [] ->
  upstream (request_of i) = Returned all_data ->
  all_present all_data (symbols i) ->
  charts (log_of (script today i upstream)) !! 0%nat
  = Some {| data := map (fun sym =>
                       {| x := map Date (frame_of all_data sym);
                          y := Floats (map (fun r => Fin (Open r)) (frame_of all_data sym));
                          mode := "lines"; stackgroup := None; name := sym |})
                    (symbols i);
            layout := Some {| title := "Opening Price Over Time";
                              xaxis_title := "Date";
                              yaxis_title := "Opening Price (USD)" |} |}.
Proof.
  intros Hsel Hup Hp.
  destruct (script_page_above today i upstream all_data Hsel Hup Hp)
    as (_ & _ & _ & ->).
  reflexivity.
Qed.

(** X7.  On a non-empty selection whose symbols all have a frame, the
    second chart is the closing-price chart: one line-and-marker series
    per selected symbol, in selection order, with the dates of the
    symbol's fetched rows as x and their closing prices as y. *)
Theorem closing_price_chart_series (today : date) (i : Inputs) upstream all_data :
  symbols i <> [] ->
  upstream (request_of i) = Returned all_data ->
  all_present all_data (symbols i) ->
  charts (log_of (script today i upstream)) !! 1%nat
  = Some {| data := map (fun sym =>
                       {| x := map Date (frame_of all_data sym);
                          y := Floats (map (fun r => Fin (Close r)) (frame_of all_data sym));
                          mode := "lines+markers"; stackgroup := None; name := sym |})
                    (symbols i);
            layout := Some {| title := "Closing Price Over Time";
                              xaxis_title := "Date";
                              yaxis_title := "Closing Price (USD)" |} |}.
Proof.
  intros Hsel Hup Hp.
  destruct (script_page_above today i upstream all_data Hsel Hup Hp)
    as (_ & _ & _ & ->).
  reflexivity.
Qed.

(** X8.  On a non-empty selection whose symbols all have a frame, the
    third chart is the volume chart: one series per selected symbol, in
    selection order, with the dates of the symbol's fetched rows as x and
    their integer volumes as y, all stacked in the one stack group. *)
Theorem volume_chart_series (today : date) (i : Inputs) upstream all_data :
  symbols i <> [] ->
  upstream (request_of i) = Returned all_data ->
  all_present all_data (symbols i) ->
  charts (log_of (script today i upstream)) !! 2%nat
  = Some {| data := map (fun sym =>
                       {| x := map Date (frame_of all_data sym);
                          y := Ints (map Volume (frame_of all_data sym));
                          mode := "lines"; stackgroup := Some "one"; name := sym |})
                    (symbols i);
            layout := Some {| title := "Volume Traded Over Time";
                              xaxis_title := "Date";
                              yaxis_title := "Volume" |} |}.
Proof.
  intros Hsel Hup Hp.
  destruct (script_page_above today i upstream all_data Hsel Hup Hp)
    as (_ & _ & _ & ->).
  reflexivity.
Qed.

Lemma pct_change_length (values : list fval) :
  length (Pandas.pct_change values) = length values.
Proof.
  unfold Pandas.pct_change, Pandas.shift.
  rewrite length_map, length_zip_with, length_take. cbn [length]. lia.
Qed.

Lemma Forall_traces (P : Scatter -> Prop) (t : string -> Scatter)
    (symbols : list string) title x_title y_title :
  (forall sym, sym ∈ symbols -> P (t sym)) ->
  Forall P (data (figure_of (map t symbols) title x_title y_title)).
Proof.
  intros H. cbn [data figure_of]. apply Forall_forall. intros trace Hin.
  apply list_elem_of_fmap in Hin as (sym & -> & Hsym). now apply H.
Qed.

(** X9.  In each of the four charts every trace is named after a
    selected symbol, has the dates of that symbol's fetched rows as x, and
    has exactly one y-value per date; the percent-change series too,
    missing first value included. *)
Theorem chart_traces_aligned (today : date) (i : Inputs) upstream all_data :
  symbols i <> [] ->
  upstream (request_of i) = Returned all_data ->
  all_present all_data (symbols i) ->
  Forall (fun fig =>
            Forall (fun trace =>
                      name trace ∈ symbols i
                      /\ x trace = map Date (frame_of all_data (name trace))
                      /\ ydata_length (y trace) = length (x trace))
                   (data fig))
         (charts (log_of (script today i upstream))).
Proof.
  intros Hsel Hup Hp.
  destruct (script_page_above today i upstream all_data Hsel Hup Hp)
    as (_ & _ & _ & ->).
  unfold charts_of.
  repeat (apply Forall_cons; split; [apply Forall_traces; intros sym Hsym|]).
  5: apply Forall_nil; exact I.
  all: split; [exact Hsym|]; split; [reflexivity|]; cbn;
    unfold index, col_Open, col_Close, col_Vol, Pandas.smul;
    rewrite ?length_map, ?pct_change_length, ?length_map; reflexivity.
Qed.

(** *** The preview *)

Lemma preview_of_length (all_data : gmap string DataFrame) (symbols : list string) :
  length (preview_of all_data symbols) = total_rows all_data symbols.
Proof.
  unfold total_rows.
  induction symbols as [|sym symbols IH]; [reflexivity|].
  rewrite preview_of_cons, length_app. unfold assign_Symbol at 1.
  rewrite length_map. cbn. now rewrite IH.
Qed.

(** X10.  On a non-empty selection whose symbols all have a frame, the
    preview table has as many rows as were fetched for the selected
    symbols together; the raw-data expander holds one table, the first
    min(20, total) rows of it, a prefix of the preview table; with at
    most 20 fetched rows the page shows the whole preview table. *)
Theorem preview_shows_first_rows (today : date) (i : Inputs) upstream all_data :
  symbols i <> [] ->
  upstream (request_of i) = Returned all_data ->
  all_present all_data (symbols i) ->
  let log := log_of (script today i upstream) in
  let preview_data := preview_of all_data (symbols i) in
  exists shown,
    inside (Within Main "Click to view raw data") log = [St_dataframe shown true]
    /\ length preview_data = total_rows all_data (symbols i)
    /\ length shown = Nat.min 20 (total_rows all_data (symbols i))
    /\ shown `prefix_of` preview_data
    /\ ((total_rows all_data (symbols i) <= 20)%nat -> shown = preview_data).
Proof.
  intros Hsel Hup Hp log preview_data.
  exists (head preview_data 20). split.
  { unfold log.
    destruct (all_nonempty_cases all_data (symbols i)) as [Hn|Hn].
    - now rewrite (script_complete _ _ _ _ Hsel Hup Hp Hn).
    - now rewrite (script_aborted _ _ _ _ Hsel Hup Hp Hn). }
  pose proof (preview_of_length all_data (symbols i)) as Hlen.
  fold preview_data in Hlen. unfold head.
  split; [exact Hlen|]. split; [rewrite length_take; lia|].
  split; [apply prefix_take|].
  intros Hle. apply take_ge. lia.
Qed.

Lemma preview_of_rows (all_data : gmap string DataFrame) (symbols : list string) :
  map ohlcv (preview_of all_data symbols) = concat (map (frame_of all_data) symbols).
Proof.
  induction symbols as [|sym symbols IH]; [reflexivity|].
  rewrite preview_of_cons, map_app, IH. cbn [map concat]. f_equal.
  unfold assign_Symbol. rewrite map_map. apply map_id.
Qed.

Lemma preview_of_row_source (all_data : gmap string DataFrame) (symbols : list string) row :
  row ∈ preview_of all_data symbols ->
  Symbol row ∈ symbols /\ ohlcv row ∈ frame_of all_data (Symbol row).
Proof.
  induction symbols as [|sym symbols IH]; [intros H; now apply elem_of_nil in H|].
  rewrite preview_of_cons, elem_of_app. intros [Hrow|Hrow].
  - unfold assign_Symbol in Hrow. apply list_elem_of_fmap in Hrow as (r & -> & Hr).
    split; [apply list_elem_of_here | exact Hr].
  - destruct (IH Hrow) as [Hin Hsrc].
    split; [now apply list_elem_of_further | exact Hsrc].
Qed.

(** X11.  Tagging does not touch the fetched rows: the table written to
    the CSV download is, with the Symbol column dropped, the selected
    symbols' fetched frames one after the other, and every row of it is a
    fetched row of the selected symbol it is tagged with. *)
Theorem preview_rows_are_fetched_rows (today : date) (i : Inputs) upstream all_data :
  symbols i <> [] ->
  upstream (request_of i) = Returned all_data ->
  all_present all_data (symbols i) ->
  exists preview_data,
    downloads (log_of (script today i upstream))
    = [(encode (to_csv preview_data true) "utf-8", "stock_data.csv", "text/csv")]
    /\ map ohlcv preview_data = concat (map (frame_of all_data) (symbols i))
    /\ Forall (fun row => Symbol row ∈ symbols i
                          /\ ohlcv row ∈ frame_of all_data (Symbol row))
              preview_data.
Proof.
  intros Hsel Hup Hp. exists (preview_of all_data (symbols i)).
  destruct (script_page_above today i upstream all_data Hsel Hup Hp)
    as (_ & _ & Hdown & _).
  split; [exact Hdown|]. split; [apply preview_of_rows|].
  apply Forall_forall. intros row. apply preview_of_row_source.
Qed.

(** *** The snapshot and the last rows *)

Lemma snapshot_of_step (all_data : gmap string DataFrame) sym symbols :
  snapshot_of all_data (sym :: symbols)
  = match last (frame_of all_data sym) with
    | Some r => snapshot_row sym r :: snapshot_of all_data symbols
    | None => snapshot_of all_data symbols
    end.
Proof. unfold snapshot_of. simpl. now destruct (last (frame_of all_data sym)). Qed.

Lemma snapshot_of_ext (d1 d2 : gmap string DataFrame) (symbols : list string) :
  (forall sym, sym ∈ symbols -> last (frame_of d1 sym) = last (frame_of d2 sym)) ->
  snapshot_of d1 symbols = snapshot_of d2 symbols.
Proof.
  induction symbols as [|sym symbols IH]; intros H; [reflexivity|].
  rewrite !snapshot_of_step.
  rewrite (H sym) by apply list_elem_of_here.
  rewrite IH by (intros s Hs; apply H; now apply list_elem_of_further).
  reflexivity.
Qed.

Lemma all_nonempty_by_last (d1 d2 : gmap string DataFrame) (symbols : list string) :
  (forall sym, sym ∈ symbols -> last (frame_of d1 sym) = last (frame_of d2 sym)) ->
  all_nonempty d1 symbols -> all_nonempty d2 symbols.
Proof.
  unfold all_nonempty. rewrite !Forall_forall. intros H Hn sym Hin Hempty.
  apply (Hn sym Hin). apply last_None. rewrite (H sym Hin), Hempty. reflexivity.
Qed.

(** X12.  The snapshot reads nothing but the last row of each frame: two
    fetches that give every selected symbol a frame and agree on the last
    row of each (or on its absence) produce the same snapshot table, or
    the same abort. *)
Theorem snapshot_reads_last_rows_only (today : date) (i : Inputs)
    upstream1 upstream2 (d1 d2 : gmap string DataFrame) :
  symbols i <> [] ->
  upstream1 (request_of i) = Returned d1 ->
  upstream2 (request_of i) = Returned d2 ->
  all_present d1 (symbols i) ->
  all_present d2 (symbols i) ->
  (forall sym, sym ∈ symbols i -> last (frame_of d1 sym) = last (frame_of d2 sym)) ->
  tables (log_of (script today i upstream1)) = tables (log_of (script today i upstream2))
  /\ result_of (script today i upstream1) = result_of (script today i upstream2).
Proof.
  intros Hsel Hup1 Hup2 Hp1 Hp2 Hlast.
  destruct (all_nonempty_cases d1 (symbols i)) as [Hn1|Hn1].
  - assert (Hn2 : all_nonempty d2 (symbols i)) by eauto using all_nonempty_by_last.
    rewrite (script_complete _ _ _ _ Hsel Hup1 Hp1 Hn1).
    rewrite (script_complete _ _ _ _ Hsel Hup2 Hp2 Hn2).
    split; [|reflexivity].
    change (tables (log_of (?l, ?r))) with (tables l).
    unfold tables, rendered. rewrite !omap_app. cbn.
    now rewrite (snapshot_of_ext _ _ _ Hlast).
  - assert (Hn2 : ~ all_nonempty d2 (symbols i)).
    { intros Hn2. apply Hn1. apply (all_nonempty_by_last d2 d1); [|exact Hn2].
      intros sym Hin. symmetry. now apply Hlast. }
    rewrite (script_aborted _ _ _ _ Hsel Hup1 Hp1 Hn1).
    rewrite (script_aborted _ _ _ _ Hsel Hup2 Hp2 Hn2).
    split; reflexivity.
Qed.

Lemma snapshot_of_row_source (all_data : gmap string DataFrame)
    (symbols : list string) (row : SnapshotRow) :
  row ∈ snapshot_of all_data symbols ->
  exists r, last (frame_of all_data (snap_Symbol row)) = Some r
            /\ row = snapshot_row (snap_Symbol row) r.
Proof.
  unfold snapshot_of. rewrite list_elem_of_omap. intros (sym & _ & Hrow).
  destruct (last (frame_of all_data sym)) as [r|] eqn:Hr; [|discriminate].
  cbn in Hrow. injection Hrow as <-. exists r. cbn. split; [exact Hr | reflexivity].
Qed.


Lemma rint_monotone (a b : Qc) : a <= b -> (rint a <= rint b)%Z.
Proof.
  intros Hab. destruct (Z_le_gt_dec (rint a) (rint b)) as [Hle|Hgt]; [exact Hle|].
  exfalso.
  pose proof (rint_nearest a) as [Ha _]. pose proof (rint_nearest b) as [_ Hb].
  assert (Hz : (inject_Z (rint b) + 1 <= inject_Z (rint a))%Q).
  { assert (H1 : (inject_Z (rint b + 1) <= inject_Z (rint a))%Q)
      by (rewrite <- Zle_Qle; lia).
    rewrite inject_Z_plus in H1. exact H1. }
  unfold Qcle in Hab.
  assert (Heq : a = b) by (apply Qc_is_canon; lra).
  subst b. lia.
Qed.

Lemma round2_monotone (a b : Qc) : a <= b -> round2 a <= round2 b.
Proof.
  intros Hab. unfold round2.
  assert (H100 : a * Q2Qc 100 <= b * Q2Qc 100).
  { apply Qcmult_le_compat_r; [exact Hab|].
    unfold Qcle. apply Qle_bool_imp_le. reflexivity. }
  apply rint_monotone in H100.
  set (ka := rint (a * Q2Qc 100)) in *. set (kb := rint (b * Q2Qc 100)) in *.
  clearbody ka kb.
  unfold Qcle, Q2Qc. cbn [this]. rewrite !Qred_correct.
  unfold Qle. cbn. lia.
Qed.

(** X14.  Rounding never inverts prices in the snapshot table: whenever
    the last fetched row of a symbol has two of its prices in order (low
    below high, close between low and high, open between low and high),
    the snapshot row shows them in the same order. *)
Theorem snapshot_keeps_price_order (today : date) (i : Inputs) upstream all_data :
  symbols i <> [] ->
  upstream (request_of i) = Returned all_data ->
  all_present all_data (symbols i) ->
  all_nonempty all_data (symbols i) ->
  exists rows,
    tables (log_of (script today i upstream)) = [rows]
    /\ Forall (fun row =>
                 exists r, last (frame_of all_data (snap_Symbol row)) = Some r
                   /\ (Low r <= High r -> snap_Low row <= snap_High row)
                   /\ (Low r <= Close r -> snap_Low row <= snap_Latest_Price row)
                   /\ (Close r <= High r -> snap_Latest_Price row <= snap_High row)
                   /\ (Low r <= Open r -> snap_Low row <= snap_Opening_Price row)
                   /\ (Open r <= High r -> snap_Opening_Price row <= snap_High row))
              rows.
Proof.
  intros Hsel Hup Hp Hn. exists (snapshot_of all_data (symbols i)). split.
  - now rewrite (script_complete _ _ _ _ Hsel Hup Hp Hn).
  - apply Forall_forall. intros row Hrow.
    destruct (snapshot_of_row_source _ _ _ Hrow) as (r & Hr & Heq).
    exists r. split; [exact Hr|]. rewrite Heq. cbn.
    repeat split; apply round2_monotone.
Qed.

(** *** The percent-change chart *)

Lemma this_mult (a b : Qc) : (this (a * b) == this a * this b)%Q.
Proof. unfold Qcmult, Q2Qc. cbn [this]. apply Qred_correct. Qed.

Lemma this_minus (a b : Qc) : (this (a - b) == this a - this b)%Q.
Proof.
  unfold Qcminus, Qcplus, Qcopp, Q2Qc. cbn [this].
  rewrite !Qred_correct. reflexivity.
Qed.

Lemma this_div (a b : Qc) : (this (a / b) == this a / this b)%Q.
Proof.
  unfold Qcdiv, Qcmult, Qcinv, Q2Qc. cbn [this].
  rewrite !Qred_correct. reflexivity.
Qed.

Lemma Qc_lt_irrefl (x : Qc) : ~ x < x.
Proof. intros H. now apply (Qclt_not_eq _ _ H). Qed.

Lemma Qc_eq_this (a b : Qc) : a = b <-> (this a == this b)%Q.
Proof. split; [now intros -> | apply Qc_is_canon]. Qed.

Lemma Qc_is_neg_lt (q : Qc) : Qc_is_neg q = true <-> q < Q2Qc 0.
Proof.
  destruct q as [[n d] Hc]. unfold Qc_is_neg, Qclt, Qlt.
  cbn [this Qnum Qden]. change (this (Q2Qc 0)) with 0%Q. cbn [Qnum Qden].
  rewrite Z.ltb_lt. lia.
Qed.

Lemma Qc_is_zero_eq (q : Qc) : Qc_is_zero q = true <-> q = Q2Qc 0.
Proof.
  split; [apply Qc_is_zero_true|]. intros ->. reflexivity.
Qed.

Lemma percent_change_sign_Q (C P V : Q) :
  (0 < P -> V == (C - P) / P * 100 ->
   (0 < V <-> P < C) /\ (V == 0 <-> C == P) /\ (V < 0 <-> C < P)
   /\ (0 <= C -> -(100) <= V))%Q.
Proof.
  intros HP HV.
  set (D := ((C - P) / P)%Q) in *.
  assert (HD : (D * P == C - P)%Q) by (unfold D; field; lra).
  rewrite HV. clearbody D.
  repeat split; intros; nra.
Qed.

Lemma percent_change_sign (c p : Qc) :
  Q2Qc 0 < p ->
  (Q2Qc 0 < (c - p) / p * Q2Qc 100 <-> p < c)
  /\ ((c - p) / p * Q2Qc 100 = Q2Qc 0 <-> c = p)
  /\ ((c - p) / p * Q2Qc 100 < Q2Qc 0 <-> c < p)
  /\ (Q2Qc 0 <= c -> - Q2Qc 100 <= (c - p) / p * Q2Qc 100).
Proof.
  intros Hp. set (v := (c - p) / p * Q2Qc 100).
  assert (HV : (this v == (this c - this p) / this p * 100)%Q).
  { unfold v. rewrite this_mult, this_div, this_minus. reflexivity. }
  unfold Qclt in Hp. change (this (Q2Qc 0)) with 0%Q in Hp.
  destruct (percent_change_sign_Q (this c) (this p) (this v) Hp HV)
    as (H1 & H2 & H3 & H4).
  rewrite !Qc_eq_this. unfold Qclt, Qcle.
  change (this (Q2Qc 0)) with 0%Q. change (this (- Q2Qc 100)) with (-(100))%Q.
  repeat split; try tauto; try apply H1; try apply H2; try apply H3; try apply H4.
Qed.

Lemma pct_series_lookup (df : DataFrame) (t : nat) (p c : Qc) :
  map Close df !! t = Some p -> map Close df !! S t = Some c ->
  Pandas.smul (Pandas.pct_change (col_Close df)) (Q2Qc 100) !! S t
  = Some (code_percent_change c p).
Proof.
  intros Ht HSt.
  assert (Hcol : col_Close df = map Fin (map Close df))
    by (unfold col_Close; now rewrite map_map).
  rewrite Hcol. destruct (map Close df) as [|c0 cs]; [discriminate|].
  rewrite pct_change_closes. change (cs !! t = Some c) in HSt.
  change (zip_with code_percent_change cs (c0 :: cs) !! t
          = Some (code_percent_change c p)).
  now apply zip_with_neighbours_lookup.
Qed.

Lemma pct_trace_rendered (today : date) (i : Inputs) upstream all_data
    (sym : string) (df : DataFrame) :
  upstream (request_of i) = Returned all_data ->
  all_present all_data (symbols i) ->
  sym ∈ symbols i ->
  all_data !! sym = Some df ->
  exists fig,
    charts (log_of (script today i upstream)) !! 3%nat = Some fig
    /\ {| x := map Date df;
          y := Floats (Pandas.smul (Pandas.pct_change (col_Close df)) (Q2Qc 100));
          mode := "lines"; stackgroup := None; name := sym |} ∈ data fig.
Proof.
  intros Hup Hp Hin Hdf.
  assert (Hsel : symbols i <> [])
    by (intros E; rewrite E in Hin; now apply elem_of_nil in Hin).
  destruct (script_page_above today i upstream all_data Hsel Hup Hp)
    as (_ & _ & _ & Hcharts).
  exists (figure_of (map (pct_trace all_data) (symbols i))
            "Daily Percentage Change" "Date" "Change (%)").
  split; [now rewrite Hcharts|].
  cbn [data figure_of]. apply list_elem_of_fmap. exists sym. split; [|exact Hin].
  unfold pct_trace. now rewrite (frame_of_lookup _ _ _ Hdf).
Qed.

(** X15.  After a positive close the plotted percent change is a finite
    number whose sign is the direction of the move: positive exactly when
    the close rose, zero exactly when it stayed, negative exactly when it
    fell; and it is never below -100 when the new close is not negative. *)
Theorem pct_change_direction (today : date) (i : Inputs) upstream all_data
    (sym : string) (df : DataFrame) :
  upstream (request_of i) = Returned all_data ->
  all_present all_data (symbols i) ->
  sym ∈ symbols i ->
  all_data !! sym = Some df ->
  let closes := map Close df in
  exists fig pct,
    charts (log_of (script today i upstream)) !! 3%nat = Some fig
    /\ {| x := map Date df; y := Floats pct; mode := "lines";
          stackgroup := None; name := sym |} ∈ data fig
    /\ forall t p c,
         closes !! t = Some p -> closes !! S t = Some c -> Q2Qc 0 < p ->
         exists v, pct !! S t = Some (Fin v)
                   /\ (Q2Qc 0 < v <-> p < c)
                   /\ (v = Q2Qc 0 <-> c = p)
                   /\ (v < Q2Qc 0 <-> c < p)
                   /\ (Q2Qc 0 <= c -> - Q2Qc 100 <= v).
Proof.
  intros Hup Hp Hin Hdf closes.
  destruct (pct_trace_rendered today i upstream all_data sym df Hup Hp Hin Hdf)
    as (fig & Hfig & Htrace).
  exists fig, (Pandas.smul (Pandas.pct_change (col_Close df)) (Q2Qc 100)).
  split; [exact Hfig|]. split; [exact Htrace|].
  intros t p c Ht HSt Hpos.
  exists ((c - p) / p * Q2Qc 100). split; [|now apply percent_change_sign].
  rewrite (pct_series_lookup _ _ _ _ Ht HSt), code_percent_change_spec.
  f_equal. apply spec_percent_change_finite.
  intros ->. revert Hpos. apply Qc_lt_irrefl.
Qed.

Lemma code_percent_change_zero_prev (c : Qc) :
  code_percent_change c (Q2Qc 0)
  = if Qc_is_zero c then NaN else if Qc_is_neg c then NInf else PInf.
Proof.
  unfold code_percent_change. cbn [fdiv].
  change (Qc_is_zero (Q2Qc 0)) with true. cbv iota.
  destruct (Qc_is_zero c); [reflexivity|].
  destruct (Qc_is_neg c); reflexivity.
Qed.

(** X16.  A close of zero does not stop the run: the percent-change
    chart is rendered, and the value plotted for the day after a zero
    close is not a finite number: missing (NaN) when the new close is zero
    too, plus infinity when it is positive, minus infinity when it is
    negative. *)
Theorem pct_change_after_zero_close (today : date) (i : Inputs) upstream all_data
    (sym : string) (df : DataFrame) :
  upstream (request_of i) = Returned all_data ->
  all_present all_data (symbols i) ->
  sym ∈ symbols i ->
  all_data !! sym = Some df ->
  let closes := map Close df in
  exists fig pct,
    charts (log_of (script today i upstream)) !! 3%nat = Some fig
    /\ {| x := map Date df; y := Floats pct; mode := "lines";
          stackgroup := None; name := sym |} ∈ data fig
    /\ forall t c,
         closes !! t = Some (Q2Qc 0) -> closes !! S t = Some c ->
         (c = Q2Qc 0 -> pct !! S t = Some NaN)
         /\ (Q2Qc 0 < c -> pct !! S t = Some PInf)
         /\ (c < Q2Qc 0 -> pct !! S t = Some NInf).
Proof.
  intros Hup Hp Hin Hdf closes.
  destruct (pct_trace_rendered today i upstream all_data sym df Hup Hp Hin Hdf)
    as (fig & Hfig & Htrace).
  exists fig, (Pandas.smul (Pandas.pct_change (col_Close df)) (Q2Qc 100)).
  split; [exact Hfig|]. split; [exact Htrace|].
  intros t c Ht HSt.
  rewrite (pct_series_lookup _ _ _ _ Ht HSt), code_percent_change_zero_prev.
  split; [|split].
  - intros ->. reflexivity.
  - intros Hpos.
    assert (Hz : Qc_is_zero c = false).
    { apply Qc_nonzero_is_zero. intros ->. revert Hpos. apply Qc_lt_irrefl. }
    assert (Hn : Qc_is_neg c = false).
    { destruct (Qc_is_neg c) eqn:E; [|reflexivity].
      apply Qc_is_neg_lt in E. exfalso.
      apply (Qc_lt_irrefl c). now apply (Qclt_trans c (Q2Qc 0) c). }
    now rewrite Hz, Hn.
  - intros Hneg.
    assert (Hz : Qc_is_zero c = false).
    { apply Qc_nonzero_is_zero. intros ->. revert Hneg. apply Qc_lt_irrefl. }
    apply Qc_is_neg_lt in Hneg. now rewrite Hz, Hneg.
Qed.

Lemma Qc_is_zero_scale (k c : Qc) :
  k <> Q2Qc 0 -> Qc_is_zero (k * c) = Qc_is_zero c.
Proof.
  intros Hk. destruct (Qc_is_zero c) eqn:Hc.
  - apply Qc_is_zero_true in Hc. subst c.
    replace (k * Q2Qc 0) with (Q2Qc 0) by ring. reflexivity.
  - apply Qc_nonzero_is_zero. apply Qc_is_zero_false in Hc. intros Hkc.
    apply Qcmult_integral in Hkc as [H|H]; contradiction.
Qed.

Lemma Qc_is_neg_scale (k c : Qc) :
  Q2Qc 0 < k -> Qc_is_neg (k * c) = Qc_is_neg c.
Proof.
  intros Hk.
  assert (Hiff : k * c < Q2Qc 0 <-> c < Q2Qc 0).
  { unfold Qclt in *. rewrite this_mult. change (this (Q2Qc 0)) with 0%Q in *.
    split; intros; nra. }
  destruct (Qc_is_neg (k * c)) eqn:E1, (Qc_is_neg c) eqn:E2; try reflexivity.
  - apply Qc_is_neg_lt, Hiff, Qc_is_neg_lt in E1. congruence.
  - apply Qc_is_neg_lt, Hiff, Qc_is_neg_lt in E2. congruence.
Qed.

Lemma code_percent_change_scale (k c p : Qc) :
  Q2Qc 0 < k -> code_percent_change (k * c) (k * p) = code_percent_change c p.
Proof.
  intros Hk.
  assert (Hk0 : k <> Q2Qc 0) by (intros ->; revert Hk; apply Qc_lt_irrefl).
  unfold code_percent_change. cbn [fdiv].
  rewrite !Qc_is_zero_scale, Qc_is_neg_scale by assumption.
  destruct (Qc_is_zero p) eqn:Hp; [reflexivity|].
  apply Qc_is_zero_false in Hp. cbn [fsub fmul]. f_equal. now field.
Qed.

Lemma pct_series_scale (k : Qc) (closes : list Qc) :
  Q2Qc 0 < k ->
  Pandas.smul (Pandas.pct_change (map Fin (map (Qcmult k) closes))) (Q2Qc 100)
  = Pandas.smul (Pandas.pct_change (map Fin closes)) (Q2Qc 100).
Proof.
  intros Hk. destruct closes as [|c0 cs]; [reflexivity|].
  change (map (Qcmult k) (c0 :: cs)) with (k * c0 :: map (Qcmult k) cs).
  rewrite !pct_change_closes. f_equal.
  revert c0. induction cs as [|c cs IH]; intros c0; [reflexivity|].
  cbn [map zip_with]. rewrite (code_percent_change_scale _ _ _ Hk). f_equal.
  apply IH.
Qed.

(** X17.  The percent-change chart does not depend on the unit of the
    prices: two fetches whose frames have the same dates and whose closes
    differ by one positive factor (another currency, a split adjustment)
    give the same percent-change chart. *)
Theorem pct_chart_scale_invariant (today : date) (i : Inputs)
    upstream1 upstream2 (d1 d2 : gmap string DataFrame) (k : Qc) :
  symbols i <> [] ->
  upstream1 (request_of i) = Returned d1 ->
  upstream2 (request_of i) = Returned d2 ->
  all_present d1 (symbols i) ->
  all_present d2 (symbols i) ->
  Q2Qc 0 < k ->
  (forall sym, sym ∈ symbols i ->
     map Date (frame_of d2 sym) = map Date (frame_of d1 sym)
     /\ map Close (frame_of d2 sym) = map (Qcmult k) (map Close (frame_of d1 sym))) ->
  charts (log_of (script today i upstream2)) !! 3%nat
  = charts (log_of (script today i upstream1)) !! 3%nat.
Proof.
  intros Hsel Hup1 Hup2 Hp1 Hp2 Hk Hscaled.
  destruct (script_page_above today i upstream1 d1 Hsel Hup1 Hp1) as (_ & _ & _ & ->).
  destruct (script_page_above today i upstream2 d2 Hsel Hup2 Hp2) as (_ & _ & _ & ->).
  unfold charts_of. cbn. f_equal. f_equal.
  apply map_ext_in. intros sym Hin. apply list_elem_of_In in Hin.
  destruct (Hscaled sym Hin) as [Hdates Hcloses].
  unfold pct_trace, index. rewrite Hdates. f_equal. f_equal.
  assert (Hcol : forall df, col_Close df = map Fin (map Close df))
    by (intros df; unfold col_Close; now rewrite map_map).
  rewrite !Hcol, Hcloses. now apply pct_series_scale.
Qed.

(** *** The sidebar *)

(** X18.  Whatever is selected and however the run ends, the sidebar
    holds the eight controls of lines 11-47 in source order (the end-date
    picker defaulting to today), followed by at most one download button,
    present exactly when a download was rendered; and the help expander
    of the sidebar holds its one text. *)
Theorem sidebar_contents (today : date) (i : Inputs) upstream :
  let log := log_of (script today i upstream) in
  inside Sidebar log
  = [ St_title "📊 Dashboard Controls";
      St_markdown "
Welcome to your *Stock Dashboard*!  
Track *Opening, Closing, Volume, and **% Change* of top companies in real time.
";
      St_multiselect "📌 Select Stocks to View" options ["AAPL"; "MSFT"];
      St_date_input "🗓 Start Date" (mk_date 2023 1 1);
      St_date_input "📅 End Date" today;
      St_expander "ℹ What do these mean?";
      St_checkbox "🌗 Enable Dark Theme";
      St_button "🔄 Refresh Data" ]
    ++ map (fun '(content, file_name, mime) =>
              St_download_button "📥 Download CSV" content file_name mime)
           (downloads log)
  /\ (length (downloads log) <= 1)%nat
  /\ length (inside (Within Sidebar "ℹ What do these mean?") log) = 1%nat.
Proof.
  intros log. unfold log. clear log.
  destruct (symbols i) as [|s0 ss] eqn:Hsyms.
  { rewrite (script_empty _ _ _ Hsyms). repeat split; first [reflexivity | cbn; lia]. }
  assert (Hsel : symbols i <> []) by (rewrite Hsyms; discriminate).
  clear Hsyms.
  destruct (upstream (request_of i)) as [all_data|e] eqn:Hup.
  - destruct (all_present_cases all_data (symbols i)) as [Hp|Hp].
    + destruct (all_nonempty_cases all_data (symbols i)) as [Hn|Hn].
      * rewrite (script_complete _ _ _ _ Hsel Hup Hp Hn).
        repeat split; first [reflexivity | cbn; lia].
      * rewrite (script_aborted _ _ _ _ Hsel Hup Hp Hn).
        repeat split; first [reflexivity | cbn; lia].
    + destruct (dashboard_keyerror _ _ Hp) as (key & _ & _ & Hdash).
      rewrite (script_nonempty _ _ _ Hsel), (data_load_block_fetched _ _ _ Hup), Hdash.
      repeat split; first [reflexivity | cbn; lia].
  - rewrite (script_nonempty _ _ _ Hsel), (data_load_block_failed _ _ _ Hup).
    repeat split; first [reflexivity | cbn; lia].
Qed.

(** *** The main area *)

(** X19.  Every run starts by configuring the page, before anything is
    rendered; and a run that completes fills the main area in this order:
    title, introduction, success message, preview heading and expander,
    then heading and chart for opening prices, closing prices, volume and
    percent change, then the snapshot heading and the snapshot table. *)
Theorem main_area_order (today : date) (i : Inputs) upstream :
  let log := log_of (script today i upstream) in
  log !! 0%nat = Some (SetPageConfig "📊 Enhanced Stock Market Dashboard" "wide")
  /\ forall all_data,
       symbols i <> [] ->
       upstream (request_of i) = Returned all_data ->
       all_present all_data (symbols i) ->
       all_nonempty all_data (symbols i) ->
       exists fig_open fig_close fig_vol fig_pct df_latest,
         charts log = [fig_open; fig_close; fig_vol; fig_pct]
         /\ tables log = [df_latest]
         /\ inside Main log
            = [ St_title "📈Real-Time Stock Market Dashboard";
                St_markdown "View real-time stock prices with interactive *Opening/Closing price trends, **volume*, and more!";
                St_success "✅ Data successfully loaded!";
                St_subheader "📋 Raw Data Preview";
                St_expander "Click to view raw data";
                St_subheader "🚀 Opening Stock Price Trend";
                St_plotly_chart fig_open true;
                St_subheader "📉 Closing Stock Price Trend";
                St_plotly_chart fig_close true;
                St_subheader "📊 Daily Volume Traded";
                St_plotly_chart fig_vol true;
                St_subheader "📈 Daily % Change in Closing Price";
                St_plotly_chart fig_pct true;
                St_subheader "🔍 Latest Market Snapshot";
                St_table df_latest ].
Proof.
  intros log. unfold log. clear log. split.
  - now rewrite script_split.
  - intros all_data Hsel Hup Hp Hn.
    rewrite (script_complete _ _ _ _ Hsel Hup Hp Hn).
    do 5 eexists. repeat split; reflexivity.
Qed.

End Script.

Arguments log_of {bytes A} m.
Arguments result_of {bytes A} m.
Arguments fetches {bytes} log.
Arguments dataframes {bytes} log.
Arguments downloads {bytes} log.
Arguments charts {bytes} log.
Arguments tables {bytes} log.
Arguments warnings {bytes} log.
Arguments fully_rendered {bytes} all_data symbols log.
Arguments Render {bytes} c e.
Arguments St_download_button {bytes} label content file_name mime.

Arguments successes {bytes} log.
Arguments inside {bytes} c log.
Arguments St_expander {bytes} label.
Arguments St_subheader {bytes} body.
Arguments St_dataframe {bytes} rows use_container_width.

(** ** The sample runs *)

(** The script on the sample data, with the free CSV rendering. *)
Abbreviation sample_script := (script _ _ plain_csv plain_encode).

Ltac by_evaluation :=
  first [ reflexivity
        | discriminate
        | apply (bool_decide_unpack _); vm_compute; exact I ].

Ltac by_exact_arithmetic :=
  vm_compute;
  repeat first [ reflexivity | apply Qc_is_canon; reflexivity | f_equal ].

(** One ticker, one fetched row with open 100, close 102 and volume 1000:
    the snapshot row shows 102, 100 and 1000. *)
Example snapshot_of_one_row :
  tables (log_of (sample_script sample_today one_row_inputs one_row_upstream))
  = [[ {| snap_Symbol := "AAPL";
          snap_Latest_Price := Q2Qc 102;
          snap_Opening_Price := Q2Qc 100;
          snap_High := Q2Qc 103;
          snap_Low := Q2Qc 99;
          snap_Volume := 1000 |} ]].
Proof. by_exact_arithmetic. Qed.

(** Closes going from 100 to 110: a missing value, then 10. *)
Example pct_change_100_110 :
  Pandas.smul (Pandas.pct_change (col_Close aapl_rows)) (Q2Qc 100)
  = [NaN; Fin (Q2Qc 10)].
Proof. by_exact_arithmetic. Qed.

(** A half-way value goes to the even hundredth. *)
Example round2_tie : round2 (Q2Qc (112125 # 1000)) = Q2Qc (11212 # 100).
Proof. by_exact_arithmetic. Qed.





Lemma preview_table_concatenation_witness :
  let log := log_of (sample_script sample_today sample_inputs sample_upstream) in
  let preview_data :=
    concat (map (fun sym => map (fun r => {| ohlcv := r; Symbol := sym |})
                                (frame_of sample_data sym))
                (symbols sample_inputs)) in
  dataframes log = [take 20 preview_data]
  /\ downloads log
     = [(plain_encode (plain_csv preview_data true) "utf-8",
         "stock_data.csv", "text/csv")]
  /\ (NoDup (symbols sample_inputs) -> forall sym, sym ∈ symbols sample_inputs ->
        filter (fun row => Symbol row = sym) preview_data
        = map (fun r => {| ohlcv := r; Symbol := sym |}) (frame_of sample_data sym)).
Proof.
  apply (preview_table_concatenation _ _ plain_csv plain_encode
           sample_today sample_inputs sample_upstream sample_data); by_evaluation.
Defined.



Lemma empty_selection_warns_witness :
  let run := sample_script sample_today no_selection sample_upstream in
  fetches (log_of run) = []
  /\ warnings (log_of run)
     = ["👈 Please select at least one stock symbol to view data."]
  /\ dataframes (log_of run) = []
  /\ downloads (log_of run) = []
  /\ charts (log_of run) = []
  /\ tables (log_of run) = []
  /\ result_of run = Returned tt.
Proof.
  apply (empty_selection_warns _ _ plain_csv plain_encode
           sample_today no_selection sample_upstream); by_evaluation.
Defined.

Lemma empty_series_aborts_witness :
  let run := sample_script sample_today sample_inputs partial_upstream in
  result_of run = Raised IndexError /\ tables (log_of run) = [].
Proof.
  apply (proj1 (empty_series_aborts _ _ plain_csv plain_encode
                  sample_today sample_inputs partial_upstream) partial_data);
    by_evaluation.
Defined.

Lemma rerun_deterministic_witness :
  let run1 := sample_script sample_today sample_inputs sample_upstream in
  let run2 := sample_script another_day sample_inputs_again picky_upstream in
  dataframes (log_of run1) = dataframes (log_of run2)
  /\ downloads (log_of run1) = downloads (log_of run2)
  /\ charts (log_of run1) = charts (log_of run2)
  /\ tables (log_of run1) = tables (log_of run2)
  /\ fetches (log_of run1) = fetches (log_of run2)
  /\ result_of run1 = result_of run2.
Proof.
  apply (rerun_deterministic _ _ plain_csv plain_encode
           sample_today another_day sample_inputs sample_inputs_again
           sample_upstream picky_upstream); by_evaluation.
Defined.

Lemma csv_download_button_witness :
  let log := log_of (sample_script sample_today sample_inputs sample_upstream) in
  let csv_data :=
    plain_encode (plain_csv (preview_of sample_data (symbols sample_inputs)) true)
                 "utf-8" in
  Render Sidebar (St_download_button "📥 Download CSV" csv_data
                    "stock_data.csv" "text/csv") ∈ log
  /\ downloads log = [(csv_data, "stock_data.csv", "text/csv")].
Proof.
  apply (csv_download_button _ _ plain_csv plain_encode
           sample_today sample_inputs sample_upstream sample_data); by_evaluation.
Defined.

Lemma missing_frame_keyerror_witness :
  let run := sample_script sample_today sample_inputs aapl_only_upstream in
  result_of run = Raised (KeyError "MSFT")
  /\ successes (log_of run) = ["✅ Data successfully loaded!"]
  /\ St_expander "Click to view raw data" ∈ inside Main (log_of run)
  /\ inside (Within Main "Click to view raw data") (log_of run) = []
  /\ dataframes (log_of run) = []
  /\ downloads (log_of run) = []
  /\ charts (log_of run) = []
  /\ tables (log_of run) = [].
Proof.
  apply (missing_frame_keyerror _ _ plain_csv plain_encode
           sample_today sample_inputs aapl_only_upstream aapl_only_data
           ["AAPL"] [] "MSFT"); by_evaluation.
Defined.

Lemma one_fetch_per_run_witness :
  let run := sample_script sample_today sample_inputs sample_upstream in
  fetches (log_of run)
  = [ {| tickers := symbols sample_inputs; req_start := start_date sample_inputs;
         req_end := end_date sample_inputs;
         group_by := "ticker"; auto_adjust := true |} ]
  /\ ((exists all_data, sample_upstream (request_of sample_inputs) = Returned all_data) ->
      successes (log_of run) = ["✅ Data successfully loaded!"])
  /\ (forall e, sample_upstream (request_of sample_inputs) = Raised e ->
      successes (log_of run) = [] /\ result_of run = Raised e).
Proof.
  apply (one_fetch_per_run _ _ plain_csv plain_encode
           sample_today sample_inputs sample_upstream); by_evaluation.
Defined.

Lemma abort_leaves_page_above_snapshot_witness :
  let run := sample_script sample_today sample_inputs partial_upstream in
  result_of run = Raised IndexError
  /\ dataframes (log_of run) = [head (preview_of partial_data (symbols sample_inputs)) 20]
  /\ downloads (log_of run)
     = [(plain_encode (plain_csv (preview_of partial_data (symbols sample_inputs)) true)
                      "utf-8",
         "stock_data.csv", "text/csv")]
  /\ charts (log_of run) = charts_of partial_data (symbols sample_inputs)
  /\ last (log_of run)
     = Some (Render Main (St_subheader "🔍 Latest Market Snapshot"))
  /\ tables (log_of run) = [].
Proof.
  apply (abort_leaves_page_above_snapshot _ _ plain_csv plain_encode
           sample_today sample_inputs partial_upstream partial_data); by_evaluation.
Defined.

Lemma snapshot_columns_stay_aligned_witness :
  let latest_data' := columns_of (snapshot_of sample_data (symbols sample_inputs)) in
  @nil (event (list PreviewRow * bool * string)) = []
  /\ col_Symbol latest_data' = [] ++ symbols sample_inputs
  /\ same_lengths latest_data' = true
  /\ exists rows, pd_DataFrame (list PreviewRow * bool * string) latest_data' = ret _ rows
                  /\ length rows = length (col_Symbol latest_data').
Proof.
  apply (snapshot_columns_stay_aligned (list PreviewRow * bool * string)
           sample_data (symbols sample_inputs)
           {| col_Symbol := []; col_Latest_Price := []; col_Opening_Price := [];
              col_High := []; col_Low := []; col_Volume := [] |}
           (columns_of (snapshot_of sample_data (symbols sample_inputs))) []).
  - reflexivity.
  - vm_compute. reflexivity.
Defined.

Lemma opening_price_chart_series_witness :
  charts (log_of (sample_script sample_today sample_inputs sample_upstream)) !! 0%nat
  = Some {| data := map (fun sym =>
                       {| x := map Date (frame_of sample_data sym);
                          y := Floats (map (fun r => Fin (Open r)) (frame_of sample_data sym));
                          mode := "lines"; stackgroup := None; name := sym |})
                    (symbols sample_inputs);
            layout := Some {| title := "Opening Price Over Time";
                              xaxis_title := "Date";
                              yaxis_title := "Opening Price (USD)" |} |}.
Proof.
  apply (opening_price_chart_series _ _ plain_csv plain_encode
           sample_today sample_inputs sample_upstream sample_data); by_evaluation.
Defined.

Lemma closing_price_chart_series_witness :
  charts (log_of (sample_script sample_today sample_inputs sample_upstream)) !! 1%nat
  = Some {| data := map (fun sym =>
                       {| x := map Date (frame_of sample_data sym);
                          y := Floats (map (fun r => Fin (Close r)) (frame_of sample_data sym));
                          mode := "lines+markers"; stackgroup := None; name := sym |})
                    (symbols sample_inputs);
            layout := Some {| title := "Closing Price Over Time";
                              xaxis_title := "Date";
                              yaxis_title := "Closing Price (USD)" |} |}.
Proof.
  apply (closing_price_chart_series _ _ plain_csv plain_encode
           sample_today sample_inputs sample_upstream sample_data); by_evaluation.
Defined.

Lemma volume_chart_series_witness :
  charts (log_of (sample_script sample_today sample_inputs sample_upstream)) !! 2%nat
  = Some {| data := map (fun sym =>
                       {| x := map Date (frame_of sample_data sym);
                          y := Ints (map Volume (frame_of sample_data sym));
                          mode := "lines"; stackgroup := Some "one"; name := sym |})
                    (symbols sample_inputs);
            layout := Some {| title := "Volume Traded Over Time";
                              xaxis_title := "Date";
                              yaxis_title := "Volume" |} |}.
Proof.
  apply (volume_chart_series _ _ plain_csv plain_encode
           sample_today sample_inputs sample_upstream sample_data); by_evaluation.
Defined.

Lemma chart_traces_aligned_witness :
  Forall (fun fig =>
            Forall (fun trace =>
                      name trace ∈ symbols sample_inputs
                      /\ x trace = map Date (frame_of partial_data (name trace))
                      /\ ydata_length (y trace) = length (x trace))
                   (data fig))
         (charts (log_of (sample_script sample_today sample_inputs partial_upstream))).
Proof.
  apply (chart_traces_aligned _ _ plain_csv plain_encode
           sample_today sample_inputs partial_upstream partial_data); by_evaluation.
Defined.

Lemma preview_shows_first_rows_witness :
  let log := log_of (sample_script sample_today sample_inputs sample_upstream) in
  let preview_data := preview_of sample_data (symbols sample_inputs) in
  exists shown,
    inside (Within Main "Click to view raw data") log = [St_dataframe shown true]
    /\ length preview_data = total_rows sample_data (symbols sample_inputs)
    /\ length shown = Nat.min 20 (total_rows sample_data (symbols sample_inputs))
    /\ shown `prefix_of` preview_data
    /\ ((total_rows sample_data (symbols sample_inputs) <= 20)%nat ->
        shown = preview_data).
Proof.
  apply (preview_shows_first_rows _ _ plain_csv plain_encode
           sample_today sample_inputs sample_upstream sample_data); by_evaluation.
Defined.

Lemma preview_rows_are_fetched_rows_witness :
  exists preview_data,
    downloads (log_of (sample_script sample_today sample_inputs sample_upstream))
    = [(plain_encode (plain_csv preview_data true) "utf-8",
        "stock_data.csv", "text/csv")]
    /\ map ohlcv preview_data = concat (map (frame_of sample_data) (symbols sample_inputs))
    /\ Forall (fun row => Symbol row ∈ symbols sample_inputs
                          /\ ohlcv row ∈ frame_of sample_data (Symbol row))
              preview_data.
Proof.
  apply (preview_rows_are_fetched_rows _ _ plain_csv plain_encode
           sample_today sample_inputs sample_upstream sample_data); by_evaluation.
Defined.

Ltac for_each_sample_symbol Hin tac :=
  cbn in Hin;
  repeat (apply elem_of_cons in Hin; destruct Hin as [->|Hin]; [tac|]);
  now apply elem_of_nil in Hin.

Lemma snapshot_reads_last_rows_only_witness :
  tables (log_of (sample_script sample_today sample_inputs sample_upstream))
  = tables (log_of (sample_script sample_today sample_inputs longer_upstream))
  /\ result_of (sample_script sample_today sample_inputs sample_upstream)
     = result_of (sample_script sample_today sample_inputs longer_upstream).
Proof.
  apply (snapshot_reads_last_rows_only _ _ plain_csv plain_encode
           sample_today sample_inputs sample_upstream longer_upstream
           sample_data longer_data); try by_evaluation.
  intros sym Hin. for_each_sample_symbol Hin ltac:(vm_compute; reflexivity).
Defined.


Lemma snapshot_keeps_price_order_witness :
  exists rows,
    tables (log_of (sample_script sample_today sample_inputs sample_upstream)) = [rows]
    /\ Forall (fun row =>
                 exists r, last (frame_of sample_data (snap_Symbol row)) = Some r
                   /\ (Low r <= High r -> snap_Low row <= snap_High row)
                   /\ (Low r <= Close r -> snap_Low row <= snap_Latest_Price row)
                   /\ (Close r <= High r -> snap_Latest_Price row <= snap_High row)
                   /\ (Low r <= Open r -> snap_Low row <= snap_Opening_Price row)
                   /\ (Open r <= High r -> snap_Opening_Price row <= snap_High row))
              rows.
Proof.
  apply (snapshot_keeps_price_order _ _ plain_csv plain_encode
           sample_today sample_inputs sample_upstream sample_data); by_evaluation.
Defined.

Lemma pct_change_direction_witness :
  let closes := map Close aapl_rows in
  exists fig pct,
    charts (log_of (sample_script sample_today sample_inputs sample_upstream)) !! 3%nat
    = Some fig
    /\ {| x := map Date aapl_rows; y := Floats pct; mode := "lines";
          stackgroup := None; name := "AAPL" |} ∈ data fig
    /\ forall t p c,
         closes !! t = Some p -> closes !! S t = Some c -> Q2Qc 0 < p ->
         exists v, pct !! S t = Some (Fin v)
                   /\ (Q2Qc 0 < v <-> p < c)
                   /\ (v = Q2Qc 0 <-> c = p)
                   /\ (v < Q2Qc 0 <-> c < p)
                   /\ (Q2Qc 0 <= c -> - Q2Qc 100 <= v).
Proof.
  apply (pct_change_direction _ _ plain_csv plain_encode
           sample_today sample_inputs sample_upstream sample_data
           "AAPL" aapl_rows); by_evaluation.
Defined.

Lemma pct_change_after_zero_close_witness :
  let closes := map Close zero_close_rows in
  exists fig pct,
    charts (log_of (sample_script sample_today one_row_inputs zero_close_upstream))
      !! 3%nat = Some fig
    /\ {| x := map Date zero_close_rows; y := Floats pct; mode := "lines";
          stackgroup := None; name := "AAPL" |} ∈ data fig
    /\ forall t c,
         closes !! t = Some (Q2Qc 0) -> closes !! S t = Some c ->
         (c = Q2Qc 0 -> pct !! S t = Some NaN)
         /\ (Q2Qc 0 < c -> pct !! S t = Some PInf)
         /\ (c < Q2Qc 0 -> pct !! S t = Some NInf).
Proof.
  apply (pct_change_after_zero_close _ _ plain_csv plain_encode
           sample_today one_row_inputs zero_close_upstream zero_close_data
           "AAPL" zero_close_rows); by_evaluation.
Defined.

Lemma pct_chart_scale_invariant_witness :
  charts (log_of (sample_script sample_today sample_inputs doubled_upstream)) !! 3%nat
  = charts (log_of (sample_script sample_today sample_inputs sample_upstream)) !! 3%nat.
Proof.
  apply (pct_chart_scale_invariant _ _ plain_csv plain_encode
           sample_today sample_inputs sample_upstream doubled_upstream
           sample_data doubled_data (Q2Qc 2)); try by_evaluation.
  intros sym Hin.
  for_each_sample_symbol Hin ltac:(split; vm_compute; reflexivity).
Defined.

Lemma main_area_order_witness :
  let log := log_of (sample_script sample_today sample_inputs sample_upstream) in
  exists fig_open fig_close fig_vol fig_pct df_latest,
    charts log = [fig_open; fig_close; fig_vol; fig_pct]
    /\ tables log = [df_latest]
    /\ inside Main log
       = [ St_title _ "📈Real-Time Stock Market Dashboard";
           St_markdown _ "View real-time stock prices with interactive *Opening/Closing price trends, **volume*, and more!";
           St_success _ "✅ Data successfully loaded!";
           St_subheader "📋 Raw Data Preview";
           St_expander "Click to view raw data";
           St_subheader "🚀 Opening Stock Price Trend";
           St_plotly_chart _ fig_open true;
           St_subheader "📉 Closing Stock Price Trend";
           St_plotly_chart _ fig_close true;
           St_subheader "📊 Daily Volume Traded";
           St_plotly_chart _ fig_vol true;
           St_subheader "📈 Daily % Change in Closing Price";
           St_plotly_chart _ fig_pct true;
           St_subheader "🔍 Latest Market Snapshot";
           St_table _ df_latest ].
Proof.
  apply (proj2 (main_area_order _ _ plain_csv plain_encode
                  sample_today sample_inputs sample_upstream) sample_data);
    by_evaluation.
Defined.
